(** * Shop registration service: a shallow embedding of [server.py]

    The service is a FastAPI application with four routes over one MongoDB
    collection, [form_submissions]:

    - [POST /api/submissions]        ([create_submission])
    - [GET /api/submissions]         ([get_submissions])
    - [GET /api/submissions/export]  ([export_submissions_excel])
    - [DELETE /api/submissions/{id}] ([delete_submission])

    Python values are embedded as the inductive [pyval], a [dict] with string
    keys as a [gmap string pyval], and the collection as the list of its
    documents in natural order.  A route takes the collection and returns its
    outcome (a result or the exception raised) with the collection it
    leaves.  What the routes take from their environment (the 16 random bytes
    of [uuid.uuid4], the clock, the [ObjectId] the driver assigns) is an
    explicit argument.  The libraries the routes call (pydantic, the MongoDB
    driver, openpyxl, [uuid], [datetime]) are modelled as far as the routes
    use them.

    A Python [str] is embedded as a [string] whose every [ascii] is one
    character, so the development covers text over the code points 0..255.
    Lengths count characters, as pydantic's [min_length]/[max_length] do. *)

From Stdlib Require Import ZArith NArith Ascii String List Lia.
From stdpp Require Import gmap strings list fin_maps.

Local Open Scope N_scope.

(** ** Python built-ins used by the service *)

Module Py.

(** [s[i:j]] on a [str] (for [0 <= i <= j]). *)
Definition slice (i j : nat) (s : string) : string :=
  String.substring i (j - i) s.

(** [s[:n]]. *)
Fixpoint prefix (n : N) (s : string) : string :=
  match s with
  | EmptyString => EmptyString
  | String c s' => if n =? 0 then EmptyString else String c (prefix (N.pred n) s')
  end.

(** Characters of a string, as Python iterates over them. *)
Definition chars (s : string) : list ascii := list_ascii_of_string s.

(** The digit characters of [%d] and [%x] conversions. *)
Definition digit_char (d : N) : ascii :=
  if d <? 10 then ascii_of_N (48 + d) else ascii_of_N (87 + d).

(** [k] digits of [n] in the given base, most significant first, pushed in
    front of [acc].  For [n < base ^ k] this is what the conversions
    ["%0kd" % n] (base 10) and ["%0kx" % n] (base 16) print. *)
Fixpoint digits_be (base : N) (k : nat) (n : N) (acc : string) : string :=
  match k with
  | O => acc
  | S k' => digits_be base k' (n / base) (String (digit_char (n mod base)) acc)
  end.

Definition fmt_0d (k : nat) (n : N) : string := digits_be 10 k n "".
Definition fmt_0x (k : nat) (n : N) : string := digits_be 16 k n "".

(** Membership of a character in an inclusive range of code points. *)
Definition in_range (lo hi : N) (c : ascii) : bool :=
  (lo <=? N_of_ascii c) && (N_of_ascii c <=? hi).

End Py.

(** ** [datetime] *)

Module Datetime.

(** The only [tzinfo] the service uses is [timezone.utc]; [None] is a naive
    datetime, as [datetime.now()] returns.  The fields of a [datetime] are
    within the ranges its constructor enforces (a year has four digits, a
    microsecond six, the others two). *)
Inductive tzinfo := utc.

Record datetime := mk_datetime {
  year : N; month : N; day : N;
  hour : N; minute : N; second : N; microsecond : N;
  tz : option tzinfo
}.

(** [datetime.isoformat()]: ["%04d-%02d-%02dT%02d:%02d:%02d"], then
    [".%06d"] when the microsecond is not zero, then the UTC offset of an
    aware datetime. *)
Definition isoformat (d : datetime) : string :=
  Py.fmt_0d 4 (year d) +:+ "-" +:+ Py.fmt_0d 2 (month d) +:+ "-" +:+
  Py.fmt_0d 2 (day d) +:+ "T" +:+
  Py.fmt_0d 2 (hour d) +:+ ":" +:+ Py.fmt_0d 2 (minute d) +:+ ":" +:+
  Py.fmt_0d 2 (second d) +:+
  (if microsecond d =? 0 then "" else "." +:+ Py.fmt_0d 6 (microsecond d)) +:+
  match tz d with Some utc => "+00:00" | None => "" end.

(** [datetime.now(tz)], from what the clock reads in that zone. *)
Definition now (tzarg : option tzinfo) (clock : datetime) : datetime :=
  mk_datetime (year clock) (month clock) (day clock)
    (hour clock) (minute clock) (second clock) (microsecond clock) tzarg.

(** [strftime('%Y%m%d_%H%M%S')]. *)
Definition strftime_compact (d : datetime) : string :=
  Py.fmt_0d 4 (year d) +:+ Py.fmt_0d 2 (month d) +:+ Py.fmt_0d 2 (day d) +:+
  "_" +:+
  Py.fmt_0d 2 (hour d) +:+ Py.fmt_0d 2 (minute d) +:+ Py.fmt_0d 2 (second d).

End Datetime.

(** ** [uuid] *)

Module Uuid.

(** [UUID(bytes=os.urandom(16), version=4).int], with [r] the integer
    [int.from_bytes(bytes, 'big')] of the sixteen random bytes: the variant
    bits are set to RFC 4122 and the version nibble to 4. *)
Definition uuid4 (r : N) : N :=
  let int := N.ldiff r (N.shiftl 0xc000 48) in
  let int := N.lor int (N.shiftl 0x8000 48) in
  let int := N.ldiff int (N.shiftl 0xf000 64) in
  N.lor int (N.shiftl 4 76).

(** The six bits [uuid4] overwrites: the version nibble and the two
    variant bits. *)
Definition fixed_bits : N := N.lor (N.shiftl 0xf000 64) (N.shiftl 0xc000 48).

(** [UUID.__str__]: ['%032x' % int] cut as 8-4-4-4-12. *)
Definition str (int : N) : string :=
  let hex := Py.fmt_0x 32 int in
  Py.slice 0 8 hex +:+ "-" +:+ Py.slice 8 12 hex +:+ "-" +:+
  Py.slice 12 16 hex +:+ "-" +:+ Py.slice 16 20 hex +:+ "-" +:+
  Py.slice 20 32 hex.

End Uuid.

(** ** Python values

    The values a JSON request body and a stored document are made of.  The
    fragment leaves floats out. *)

#[warnings="-register-all"]
Inductive pyval :=
| VNone
| VBool (b : bool)
| VInt (z : Z)
| VStr (s : string)
| VDatetime (d : Datetime.datetime)
| VObjectId (n : N)
| VList (l : list pyval)
| VDict (l : list (string * pyval)).

(** A [dict] with [str] keys. *)
Abbreviation dict := (gmap string pyval).

(** ** pydantic *)

Module Pydantic.

Inductive error_type :=
| missing
| string_type
| string_too_short
| string_too_long
| string_pattern_mismatch
| datetime_type.

(** One entry of a [ValidationError]: the field it is about and what was
    violated. *)
Record error_details := mk_error { loc : string; type : error_type }.

(** The patterns of the service all have the form [r"^\d{n}$"]. *)
Inductive pattern := digits_exactly (n : nat).

(** [\d] on the characters of the model: among the code points 0..255 the
    decimal digits are ["0"] to ["9"]. *)
Definition is_digit (c : ascii) : bool := Py.in_range 48 57 c.

(** The anchors [^] and [$] make the match cover the whole string. *)
Definition is_match (p : pattern) (s : string) : bool :=
  match p with
  | digits_exactly n =>
      (String.length s =? n)%nat && forallb is_digit (Py.chars s)
  end.

(** [Field(..., min_length=, max_length=, pattern=)] on a [str]. *)
Record Field := mk_field {
  min_length : option nat;
  max_length : option nat;
  pattern_of : option pattern
}.

Definition plain : Field := mk_field None None None.

(** The string validator: the type first, then [min_length], [max_length]
    and [pattern], in this order; the first violation is the one reported. *)
Definition validate_str (f : Field) (v : pyval) : error_type + string :=
  match v with
  | VStr s =>
      if match min_length f with
         | Some n => (String.length s <? n)%nat | None => false end
      then inl string_too_short
      else if match max_length f with
              | Some n => (n <? String.length s)%nat | None => false end
      then inl string_too_long
      else if match pattern_of f with
              | Some p => negb (is_match p s) | None => false end
      then inl string_pattern_mismatch
      else inr s
  | _ => inl string_type
  end.

(** A [datetime] field given a [datetime].  (Nothing in the service passes
    one in: the field is always filled by its default factory.) *)
Definition validate_datetime (v : pyval) : error_type + Datetime.datetime :=
  match v with
  | VDatetime d => inr d
  | _ => inl datetime_type
  end.

(** Model validation visits the fields in declaration order and collects
    the errors of all of them: the errors so far, and the value when there
    is none. *)
Definition validated (A : Type) : Type := (list error_details * option A)%type.

Definition vpure {A} (a : A) : validated A := ([], Some a).

Definition vap {A B} (f : validated (A -> B)) (x : validated A) : validated B :=
  (f.1 ++ x.1,
   match f.2, x.2 with
   | Some g, Some a => Some (g a)
   | _, _ => None
   end).

Definition of_result {A} (name : string) (r : error_type + A) : validated A :=
  match r with
  | inl e => ([mk_error name e], None)
  | inr a => ([], Some a)
  end.

(** A required field. *)
Definition required {A} (name : string) (validate : pyval -> error_type + A)
    (data : dict) : validated A :=
  match data !! name with
  | None => ([mk_error name missing], None)
  | Some v => of_result name (validate v)
  end.

(** A field with a [default_factory]. *)
Definition with_default {A} (name : string) (validate : pyval -> error_type + A)
    (default : A) (data : dict) : validated A :=
  match data !! name with
  | None => ([], Some default)
  | Some v => of_result name (validate v)
  end.

(** The model is built when no field failed; otherwise the errors are
    raised together. *)
Definition finish {A} (v : validated A) : list error_details + A :=
  match v with
  | ([], Some a) => inr a
  | (errs, _) => inl errs
  end.

End Pydantic.

Notation "f <*> x" := (Pydantic.vap f x) (at level 61, left associativity).

(** ** Exceptions and outcomes *)

Inductive exn :=
| KeyError (k : string)
| AttributeError
| RequestValidationError (errs : list Pydantic.error_details)
| ValidationError (errs : list Pydantic.error_details)
| ValueError
| IllegalCharacterError.

Inductive outcome (A : Type) :=
| Ok (a : A)
| Raise (e : exn).
Arguments Ok {A} a.
Arguments Raise {A} e.

Definition obind {A B} (m : outcome A) (k : A -> outcome B) : outcome B :=
  match m with
  | Ok a => k a
  | Raise e => Raise e
  end.

Notation "x <- m ;; k" := (obind m (fun x => k))
  (at level 100, m at next level, right associativity).

(** A [for] loop threading a value through its iterations. *)
Fixpoint for_fold {A S} (body : S -> A -> outcome S) (s : S) (l : list A) : outcome S :=
  match l with
  | [] => Ok s
  | a :: l' => s' <- body s a ;; for_fold body s' l'
  end.

(** A [for] loop appending one result per iteration. *)
Fixpoint for_append {A B} (body : A -> outcome B) (l : list A) : outcome (list B) :=
  match l with
  | [] => Ok []
  | a :: l' => b <- body a ;; bs <- for_append body l' ;; Ok (b :: bs)
  end.

(** [enumerate(l, start)]. *)
Fixpoint enumerate {A} (start : nat) (l : list A) : list (nat * A) :=
  match l with
  | [] => []
  | a :: l' => (start, a) :: enumerate (S start) l'
  end.

(** [d[k]]. *)
Definition getitem (d : dict) (k : string) : outcome pyval :=
  match d !! k with
  | Some v => Ok v
  | None => Raise (KeyError k)
  end.

(** [d.get(k, default)]. *)
Definition dict_get (d : dict) (k : string) (default : pyval) : pyval :=
  match d !! k with
  | Some v => v
  | None => default
  end.

(** Keyword arguments [k1=d[k1], ..., kn=d[kn]], evaluated left to right. *)
Fixpoint kwargs (keys : list string) (d : dict) : outcome dict :=
  match keys with
  | [] => Ok ∅
  | k :: keys' =>
      v <- getitem d k ;;
      rest <- kwargs keys' d ;;
      Ok (<[k := v]> rest)
  end.

(** ** The models of [server.py] *)

Module FormSubmissionCreate.

Record t := mk {
  mobile_no : string;
  shop_name : string;
  owner_name : string;
  ind_name : string;
  area_pin_code : string;
  address : string;
  city : string;
  dist : string;
  state : string;
  country : string
}.

(** [Field(..., min_length=n, max_length=n, pattern=r"^\d{n}$")]. *)
Definition digits (n : nat) : Pydantic.Field :=
  Pydantic.mk_field (Some n) (Some n) (Some (Pydantic.digits_exactly n)).

(** [Field(..., min_length=1)]. *)
Definition text : Pydantic.Field := Pydantic.mk_field (Some 1%nat) None None.

(** The fields with their constraints, in declaration order. *)
Definition fields : list (string * Pydantic.Field) :=
  [ ("mobile_no", digits 10); ("shop_name", text); ("owner_name", text);
    ("ind_name", text); ("area_pin_code", digits 6); ("address", text);
    ("city", text); ("dist", text); ("state", text); ("country", text) ].

Definition str_field (name : string) (f : Pydantic.Field) (data : dict) :=
  Pydantic.required name (Pydantic.validate_str f) data.

(** Validation of a request body.  The model has no [model_config], so
    keys that are not fields are ignored (pydantic's default). *)
Definition validate (data : dict) : list Pydantic.error_details + t :=
  Pydantic.finish
    (Pydantic.vpure mk
       <*> str_field "mobile_no" (digits 10) data
       <*> str_field "shop_name" text data
       <*> str_field "owner_name" text data
       <*> str_field "ind_name" text data
       <*> str_field "area_pin_code" (digits 6) data
       <*> str_field "address" text data
       <*> str_field "city" text data
       <*> str_field "dist" text data
       <*> str_field "state" text data
       <*> str_field "country" text data).

Definition model_dump (m : t) : dict :=
  <["mobile_no" := VStr (mobile_no m)]> (
  <["shop_name" := VStr (shop_name m)]> (
  <["owner_name" := VStr (owner_name m)]> (
  <["ind_name" := VStr (ind_name m)]> (
  <["area_pin_code" := VStr (area_pin_code m)]> (
  <["address" := VStr (address m)]> (
  <["city" := VStr (city m)]> (
  <["dist" := VStr (dist m)]> (
  <["state" := VStr (state m)]> (
  <["country" := VStr (country m)]> ∅))))))))).

End FormSubmissionCreate.

Module FormSubmission.

Record t := mk {
  id : string;
  mobile_no : string;
  shop_name : string;
  owner_name : string;
  ind_name : string;
  area_pin_code : string;
  address : string;
  city : string;
  dist : string;
  state : string;
  country : string;
  created_at : Datetime.datetime
}.

Definition str_field (name : string) (data : dict) :=
  Pydantic.required name (Pydantic.validate_str Pydantic.plain) data.

(** [FormSubmission] built from the keyword arguments [data], with the
    values the two default factories produce when called: [str(uuid.uuid4())] and
    [datetime.now(timezone.utc)].  [extra="ignore"]: other keys are
    dropped. *)
Definition validate (new_id : string) (now : Datetime.datetime) (data : dict)
    : list Pydantic.error_details + t :=
  Pydantic.finish
    (Pydantic.vpure mk
       <*> Pydantic.with_default "id" (Pydantic.validate_str Pydantic.plain) new_id data
       <*> str_field "mobile_no" data
       <*> str_field "shop_name" data
       <*> str_field "owner_name" data
       <*> str_field "ind_name" data
       <*> str_field "area_pin_code" data
       <*> str_field "address" data
       <*> str_field "city" data
       <*> str_field "dist" data
       <*> str_field "state" data
       <*> str_field "country" data
       <*> Pydantic.with_default "created_at" Pydantic.validate_datetime now data).

Definition model_dump (m : t) : dict :=
  <["id" := VStr (id m)]> (
  <["mobile_no" := VStr (mobile_no m)]> (
  <["shop_name" := VStr (shop_name m)]> (
  <["owner_name" := VStr (owner_name m)]> (
  <["ind_name" := VStr (ind_name m)]> (
  <["area_pin_code" := VStr (area_pin_code m)]> (
  <["address" := VStr (address m)]> (
  <["city" := VStr (city m)]> (
  <["dist" := VStr (dist m)]> (
  <["state" := VStr (state m)]> (
  <["country" := VStr (country m)]> (
  <["created_at" := VDatetime (created_at m)]> ∅))))))))))).

End FormSubmission.

Module FormSubmissionResponse.

Record t := mk {
  id : string;
  mobile_no : string;
  shop_name : string;
  owner_name : string;
  ind_name : string;
  area_pin_code : string;
  address : string;
  city : string;
  dist : string;
  state : string;
  country : string;
  created_at : string
}.

(** The fields, in declaration order: the record of section 3 of the
    specification. *)
Definition field_names : list string :=
  [ "id"; "mobile_no"; "shop_name"; "owner_name"; "ind_name";
    "area_pin_code"; "address"; "city"; "dist"; "state"; "country";
    "created_at" ].

Definition str_field (name : string) (data : dict) :=
  Pydantic.required name (Pydantic.validate_str Pydantic.plain) data.

Definition validate (data : dict) : list Pydantic.error_details + t :=
  Pydantic.finish
    (Pydantic.vpure mk
       <*> str_field "id" data
       <*> str_field "mobile_no" data
       <*> str_field "shop_name" data
       <*> str_field "owner_name" data
       <*> str_field "ind_name" data
       <*> str_field "area_pin_code" data
       <*> str_field "address" data
       <*> str_field "city" data
       <*> str_field "dist" data
       <*> str_field "state" data
       <*> str_field "country" data
       <*> str_field "created_at" data).

(** The JSON object of the response. *)
Definition model_dump (m : t) : dict :=
  <["id" := VStr (id m)]> (
  <["mobile_no" := VStr (mobile_no m)]> (
  <["shop_name" := VStr (shop_name m)]> (
  <["owner_name" := VStr (owner_name m)]> (
  <["ind_name" := VStr (ind_name m)]> (
  <["area_pin_code" := VStr (area_pin_code m)]> (
  <["address" := VStr (address m)]> (
  <["city" := VStr (city m)]> (
  <["dist" := VStr (dist m)]> (
  <["state" := VStr (state m)]> (
  <["country" := VStr (country m)]> (
  <["created_at" := VStr (created_at m)]> ∅))))))))))).

(** [FormSubmissionResponse(id=d['id'], ..., created_at=d['created_at'])]:
    the subscripts are evaluated first, in order, and raise [KeyError] on
    a missing key; then the model is validated. *)
Definition of_doc (d : dict) : outcome t :=
  args <- kwargs field_names d ;;
  match validate args with
  | inr r => Ok r
  | inl errs => Raise (ValidationError errs)
  end.

End FormSubmissionResponse.

(** ** The document store

    The collection [db.form_submissions], as the list of its documents in
    natural order.  The store is taken to be reliable: a driver or network
    failure is outside the model. *)

Module Mongo.

Abbreviation collection := (list dict).

(** [insert_one(doc)]: a document without ["_id"] gets one, the [ObjectId]
    the driver generates.  The key is added to the caller's dict itself,
    which is returned here next to the collection. *)
Definition insert_one (object_id : N) (doc : dict) (c : collection)
    : dict * collection :=
  let doc :=
    match doc !! "_id" with
    | Some _ => doc
    | None => <["_id" := VObjectId object_id]> doc
    end in
  (doc, c ++ [doc]).

(** [find({}, {key: 0}).to_list(length)]: every document, without the
    excluded key, at most [length] of them. *)
Definition find_to_list (excluded : string) (length : nat) (c : collection)
    : list dict :=
  take length (delete excluded <$> c).

(** The filter [{key: x}] for a string [x]: the field equals [x], or is an
    array with [x] among its elements. *)
Definition is_str (x : string) (v : pyval) : bool :=
  match v with
  | VStr s => String.eqb s x
  | _ => false
  end.

Definition matches (key x : string) (d : dict) : bool :=
  match d !! key with
  | Some (VList l) => existsb (is_str x) l
  | Some v => is_str x v
  | None => false
  end.

(** [delete_one({key: x})]: the first matching document is removed; the
    result is [deleted_count]. *)
Fixpoint delete_one (key x : string) (c : collection) : nat * collection :=
  match c with
  | [] => (O, [])
  | d :: c' =>
      if matches key x d then (1%nat, c')
      else let '(n, c'') := delete_one key x c' in (n, d :: c'')
  end.

End Mongo.

(** ** The worksheet of openpyxl

    A worksheet is the grid of its cells; of a cell only the value is kept:
    fonts, fills, borders, alignments and column widths do not change what
    the cells hold. *)

Module Openpyxl.

Inductive cell_value :=
| Empty
| Number (z : Z)
| Boolean (b : bool)
| Text (s : string)
| Date (d : Datetime.datetime).

Abbreviation worksheet := (gmap (nat * nat) cell_value).

(** [ILLEGAL_CHARACTERS_RE] of [openpyxl.cell.cell], the octal ranges
    [[\000-\010]|[\013-\014]|[\016-\037]]: the control characters other
    than tab, line feed and carriage return. *)
Definition illegal (c : ascii) : bool :=
  Py.in_range 0 8 c || Py.in_range 11 12 c || Py.in_range 14 31 c.

(** [Cell.check_string]: the text is cut to 32767 characters and refused
    with [IllegalCharacterError] when an illegal character is left in it. *)
Definition check_string (s : string) : outcome string :=
  let value := Py.prefix 32767 s in
  if existsb illegal (Py.chars value) then Raise IllegalCharacterError
  else Ok value.

(** [Cell._bind_value]: the cell takes numbers, booleans, dates and checked
    text; for a value of any other type it raises [ValueError] ("Cannot
    convert ... to Excel"). *)
Definition bind_value (value : pyval) : outcome cell_value :=
  match value with
  | VNone => Ok Empty
  | VBool b => Ok (Boolean b)
  | VInt z => Ok (Number z)
  | VStr s => s' <- check_string s ;; Ok (Text s')
  | VDatetime d => Ok (Date d)
  | VObjectId _ | VList _ | VDict _ => Raise ValueError
  end.

(** [ws.cell(row, column, value)]: the cell is created when the grid does
    not have it yet, and is assigned unless the value is [None]. *)
Definition cell (row column : nat) (value : pyval) (ws : worksheet)
    : outcome worksheet :=
  if ((row <? 1) || (column <? 1))%nat then Raise ValueError
  else
    let ws :=
      match ws !! (row, column) with
      | Some _ => ws
      | None => <[(row, column) := Empty]> ws
      end in
    match value with
    | VNone => Ok ws
    | _ => v <- bind_value value ;; Ok (<[(row, column) := v]> ws)
    end.

(** [ws.max_row] and [ws.max_column]: 1 on a sheet without cells. *)
Definition max_row (ws : worksheet) : nat :=
  max_list (1%nat :: (fst <$> (map_to_list ws).*1)).

Definition max_column (ws : worksheet) : nat :=
  max_list (1%nat :: (snd <$> (map_to_list ws).*1)).

(** [ws.values]: the rows [1..max_row], each over the columns
    [1..max_column]; a position without a cell reads as empty. *)
Definition values (ws : worksheet) : list (list cell_value) :=
  let rows := max_row ws in
  let columns := max_column ws in
  (fun r => (fun c => default Empty (ws !! (r, c))) <$> seq 1 columns)
    <$> seq 1 rows.

End Openpyxl.

(** ** The routes *)

(** [headers], the titles of the twelve columns. *)
Definition headers : list string :=
  [ "S.No"; "Mobile No."; "Shop Name"; "Owner Name"; "Industry Name";
    "Pin Code"; "Address"; "City"; "District"; "State"; "Country";
    "Submitted At" ].

(** [x.isoformat()] on a value read back from a dict. *)
Definition isoformat_of (v : pyval) : outcome string :=
  match v with
  | VDatetime d => Ok (Datetime.isoformat d)
  | _ => Raise AttributeError
  end.

(** [POST /api/submissions].  [urandom] is the integer of the sixteen random
    bytes [uuid.uuid4] draws, [clock] what the UTC clock reads and
    [object_id] the identifier the driver generates.  A body that fails
    validation never reaches the handler (FastAPI answers 422). *)
Definition create_submission (urandom : N) (clock : Datetime.datetime)
    (object_id : N) (body : dict) (db : Mongo.collection)
    : outcome FormSubmissionResponse.t * Mongo.collection :=
  match FormSubmissionCreate.validate body with
  | inl errs => (Raise (RequestValidationError errs), db)
  | inr input =>
      let submission_dict := FormSubmissionCreate.model_dump input in
      match FormSubmission.validate
              (Uuid.str (Uuid.uuid4 urandom))
              (Datetime.now (Some Datetime.utc) clock)
              submission_dict with
      | inl errs => (Raise (ValidationError errs), db)
      | inr submission_obj =>
          let doc := FormSubmission.model_dump submission_obj in
          match (created_at <- getitem doc "created_at" ;;
                 iso <- isoformat_of created_at ;;
                 Ok (<["created_at" := VStr iso]> doc)) with
          | Raise e => (Raise e, db)
          | Ok doc =>
              let '(doc, db) := Mongo.insert_one object_id doc db in
              (FormSubmissionResponse.of_doc doc, db)
          end
      end
  end.

(** [GET /api/submissions]. *)
Definition get_submissions (db : Mongo.collection)
    : outcome (list FormSubmissionResponse.t) * Mongo.collection :=
  let submissions := Mongo.find_to_list "_id" 1000 db in
  (for_append FormSubmissionResponse.of_doc submissions, db).

(** The body of the download: the sheet and the headers of the response.
    (The bytes [wb.save] writes are not modelled.) *)
Record StreamingResponse := mk_streaming {
  sheet_title : string;
  sheet : Openpyxl.worksheet;
  media_type : string;
  content_disposition : string
}.

(** [row_data] of one submission. *)
Definition row_data (row_idx : nat) (sub : dict) : list pyval :=
  [ VInt (Z.of_nat row_idx - 1);
    dict_get sub "mobile_no" (VStr "");
    dict_get sub "shop_name" (VStr "");
    dict_get sub "owner_name" (VStr "");
    dict_get sub "ind_name" (VStr "");
    dict_get sub "area_pin_code" (VStr "");
    dict_get sub "address" (VStr "");
    dict_get sub "city" (VStr "");
    dict_get sub "dist" (VStr "");
    dict_get sub "state" (VStr "");
    dict_get sub "country" (VStr "");
    dict_get sub "created_at" (VStr "") ].

(** The loop over one row: [ws.cell(row=row, column=col, value=value)]. *)
Definition write_row (row : nat) (values : list pyval) (ws : Openpyxl.worksheet)
    : outcome Openpyxl.worksheet :=
  for_fold (fun ws '(col, value) => Openpyxl.cell row col value ws)
    ws (enumerate 1 values).

(** [GET /api/submissions/export].  [clock] is what the local clock reads
    when the file is named. *)
Definition export_submissions_excel (clock : Datetime.datetime)
    (db : Mongo.collection) : outcome StreamingResponse * Mongo.collection :=
  let submissions := Mongo.find_to_list "_id" 1000 db in
  let ws : Openpyxl.worksheet := ∅ in
  (ws <- write_row 1 (VStr <$> headers) ws ;;
   ws <- for_fold (fun ws '(row_idx, sub) => write_row row_idx (row_data row_idx sub) ws)
           ws (enumerate 2 submissions) ;;
   let filename :=
     "form_submissions_" +:+ Datetime.strftime_compact (Datetime.now None clock)
       +:+ ".xlsx" in
   Ok (mk_streaming "Form Submissions" ws
         "application/vnd.openxmlformats-officedocument.spreadsheetml.sheet"
         ("attachment; filename=" +:+ filename)),
   db).

(** The JSON object [DELETE] answers with. *)
Record DeleteResponse := mk_delete { success : bool; message : string }.

(** [DELETE /api/submissions/{submission_id}]. *)
Definition delete_submission (submission_id : string) (db : Mongo.collection)
    : outcome DeleteResponse * Mongo.collection :=
  let '(deleted_count, db) := Mongo.delete_one "id" submission_id db in
  if (deleted_count =? 0)%nat
  then (Ok (mk_delete false "Submission not found"), db)
  else (Ok (mk_delete true "Submission deleted"), db).

(** ** The service as a transition system

    One request at a time (section 5 of the specification: the store
    serialises the operations), each with what it reads from its
    environment. *)

Inductive request :=
| Create (urandom : N) (clock : Datetime.datetime) (object_id : N) (body : dict)
| List
| Export (clock : Datetime.datetime)
| Delete (submission_id : string).

(** The collection after a request. *)
Definition handle (db : Mongo.collection) (r : request) : Mongo.collection :=
  match r with
  | Create urandom clock object_id body =>
      (create_submission urandom clock object_id body db).2
  | List => (get_submissions db).2
  | Export clock => (export_submissions_excel clock db).2
  | Delete submission_id => (delete_submission submission_id db).2
  end.

(** The collection after a sequence of requests on an empty collection. *)
Definition run (rs : list request) : Mongo.collection := foldl handle [] rs.

(** The ids the [Create] requests of a sequence generate. *)
Definition created_ids (rs : list request) : list string :=
  omap (fun r => match r with
                 | Create urandom _ _ _ => Some (Uuid.str (Uuid.uuid4 urandom))
                 | _ => None
                 end) rs.

(** The ["id"] fields of the stored documents. *)
Definition stored_ids (db : Mongo.collection) : list (option pyval) :=
  (fun d : dict => d !! "id") <$> db.

(** The ids of the stored documents are pairwise distinct. *)
Definition unique_ids (db : Mongo.collection) : Prop := NoDup (stored_ids db).

(** ** Vocabulary of the specification *)

(** "Exactly [n] digits". *)
Definition exactly_n_digits (n : nat) (s : string) : Prop :=
  String.length s = n /\
  forall c, In c (Py.chars s) -> (48 <= N_of_ascii c <= 57).

(** "Non-empty text". *)
Definition non_empty (s : string) : Prop := s <> "".

(** The shape section 3 of the specification requires of a field. *)
Definition shape (name : string) (s : string) : Prop :=
  if decide (name = "mobile_no") then exactly_n_digits 10 s
  else if decide (name = "area_pin_code") then exactly_n_digits 6 s
  else non_empty s.

(** A body has a field of the required shape. *)
Definition well_shaped (body : dict) (name : string) : Prop :=
  exists s, body !! name = Some (VStr s) /\ shape name s.

(** The names of the ten input fields. *)
Definition input_fields : list string := FormSubmissionCreate.fields.*1.

(** What a field's constraints accept. *)
Definition accepts (f : Pydantic.Field) (s : string) : Prop :=
  Pydantic.validate_str f (VStr s) = inr s.

(** A validation result is coherent: there is no value exactly when there
    is an error. *)
Definition coherent {A} (v : Pydantic.validated A) : Prop :=
  v.2 = None <-> v.1 <> [].

(** A format: a digit, or a given character. *)
Inductive format_item := Digit | Char (c : ascii).

Fixpoint matches_format (fmt : list format_item) (s : list ascii) : bool :=
  match fmt, s with
  | [], [] => true
  | Digit :: fmt', c :: s' => Pydantic.is_digit c && matches_format fmt' s'
  | Char a :: fmt', c :: s' => Ascii.eqb a c && matches_format fmt' s'
  | _, _ => false
  end.

Definition iso_date_time : list format_item :=
  [ Digit; Digit; Digit; Digit; Char "-"; Digit; Digit; Char "-"; Digit; Digit;
    Char "T"; Digit; Digit; Char ":"; Digit; Digit; Char ":"; Digit; Digit ].

Definition iso_fraction : list format_item :=
  [ Char "."; Digit; Digit; Digit; Digit; Digit; Digit ].

Definition iso_utc_offset : list format_item :=
  [ Char "+"; Char "0"; Char "0"; Char ":"; Char "0"; Char "0" ].

(** ISO 8601 date and time with the UTC offset:
    [YYYY-MM-DDTHH:MM:SS+00:00], with an optional fraction [.ffffff] of the
    second. *)
Definition is_iso8601_utc (s : string) : bool :=
  matches_format (iso_date_time ++ iso_utc_offset) (Py.chars s)
  || matches_format (iso_date_time ++ iso_fraction ++ iso_utc_offset) (Py.chars s).

(** ** Records

    The record section 3 of the specification describes, as a document:
    the ten input fields under their names, with the id and the timestamp. *)
Definition record_doc (id : string) (input : FormSubmissionCreate.t)
    (created_at : string) : dict :=
  <["id" := VStr id]> (
  <["created_at" := VStr created_at]> (FormSubmissionCreate.model_dump input)).

(** The same record, as a response. *)
Definition record_response (id : string) (input : FormSubmissionCreate.t)
    (created_at : string) : FormSubmissionResponse.t :=
  FormSubmissionResponse.mk id
    (FormSubmissionCreate.mobile_no input) (FormSubmissionCreate.shop_name input)
    (FormSubmissionCreate.owner_name input) (FormSubmissionCreate.ind_name input)
    (FormSubmissionCreate.area_pin_code input) (FormSubmissionCreate.address input)
    (FormSubmissionCreate.city input) (FormSubmissionCreate.dist input)
    (FormSubmissionCreate.state input) (FormSubmissionCreate.country input)
    created_at.

(** A document [Create] stores. *)
Definition created_doc (urandom : N) (clock : Datetime.datetime)
    (object_id : N) (input : FormSubmissionCreate.t) : dict :=
  <["_id" := VObjectId object_id]>
    (record_doc (Uuid.str (Uuid.uuid4 urandom)) input
       (Datetime.isoformat (Datetime.now (Some Datetime.utc) clock))).

(** ** The exported sheet *)

(** The fields a data row shows after the sequence number. *)
Definition exported_fields : list string :=
  [ "mobile_no"; "shop_name"; "owner_name"; "ind_name"; "area_pin_code";
    "address"; "city"; "dist"; "state"; "country"; "created_at" ].

(** A value a worksheet cell accepts. *)
Definition storable_value (v : pyval) : Prop :=
  exists c, Openpyxl.bind_value v = Ok c.

(** A document whose exported fields, where present, hold such values. *)
Definition storable (d : dict) : Prop :=
  forall k v, k ∈ exported_fields -> d !! k = Some v -> storable_value v.

(** The same, as a check. *)
Definition storableb (d : dict) : bool :=
  forallb (fun k => match d !! k with
                    | Some v => match Openpyxl.bind_value v with
                                | Ok _ => true
                                | Raise _ => false
                                end
                    | None => true
                    end) exported_fields.

(** Text a worksheet cell takes as it is. *)
Definition cell_text (s : string) : Prop :=
  N.of_nat (String.length s) <= 32767 /\
  forall c, In c (Py.chars s) -> Openpyxl.illegal c = false.

(** The cell of an accepted value. *)
Definition cell_of (v : pyval) : Openpyxl.cell_value :=
  match Openpyxl.bind_value v with
  | Ok c => c
  | Raise _ => Openpyxl.Empty
  end.

Definition header_row : list Openpyxl.cell_value := Openpyxl.Text <$> headers.

(** The data row of the record at position [i] (from 0): its sequence
    number, then per field the value, or the empty string. *)
Definition data_row (i : nat) (d : dict) : list Openpyxl.cell_value :=
  Openpyxl.Number (Z.of_nat i + 1)
  :: ((fun k => match d !! k with
                | Some v => cell_of v
                | None => Openpyxl.Text ""
                end) <$> exported_fields).

(** The cell of a list of rows at a row and a column counted from 1. *)
Definition grid_at (rows : list (list Openpyxl.cell_value)) (r c : nat)
    : option Openpyxl.cell_value :=
  match r, c with
  | S r', S c' => rows !! r' ≫= (fun row => row !! c')
  | _, _ => None
  end.

(** The sheet holds exactly the cells of [rows]. *)
Definition holds (ws : Openpyxl.worksheet)
    (rows : list (list Openpyxl.cell_value)) : Prop :=
  forall r c, ws !! (r, c) = grid_at rows r c.

(** ** Start-up configuration *)

(** [s.split(sep)] for a separator of one character: the pieces between
    the separators, empty pieces included. *)
Fixpoint split (sep : ascii) (s : string) : list string :=
  match s with
  | EmptyString => [EmptyString]
  | String c s' =>
      if Ascii.eqb c sep then EmptyString :: split sep s'
      else match split sep s' with
           | piece :: pieces => String c piece :: pieces
           | [] => [String c EmptyString]
           end
  end.

(** [os.environ.get(key, default)]. *)
Definition environ_get (environ : gmap string string) (key default : string)
    : string :=
  match environ !! key with
  | Some value => value
  | None => default
  end.

(** [allow_origins] of the CORS middleware:
    [os.environ.get('CORS_ORIGINS', '*').split(',')]. *)
Definition allow_origins (environ : gmap string string) : list string :=
  split "," (environ_get environ "CORS_ORIGINS" "*").

(** ** More vocabulary *)


(** A body whose strings in the ten input fields are text a worksheet cell
    takes as it is. *)
Definition printable_body (body : dict) : Prop :=
  forall name s, name ∈ input_fields -> body !! name = Some (VStr s) -> cell_text s.

(** The fields of a response a data row shows, in column order. *)
Definition response_cells (r : FormSubmissionResponse.t) : list string :=
  [ FormSubmissionResponse.mobile_no r; FormSubmissionResponse.shop_name r;
    FormSubmissionResponse.owner_name r; FormSubmissionResponse.ind_name r;
    FormSubmissionResponse.area_pin_code r; FormSubmissionResponse.address r;
    FormSubmissionResponse.city r; FormSubmissionResponse.dist r;
    FormSubmissionResponse.state r; FormSubmissionResponse.country r;
    FormSubmissionResponse.created_at r ].

(** The documents a filter [{"id": x}] selects, and the others. *)
Definition selected (x : string) (db : Mongo.collection) : Mongo.collection :=
  filter (fun d => Mongo.matches "id" x d = true) db.

Definition unselected (x : string) (db : Mongo.collection) : Mongo.collection :=
  filter (fun d => Mongo.matches "id" x d <> true) db.

(** A datetime within the ranges the constructor of [datetime] enforces
    (the days of the month aside). *)
Definition valid_datetime (d : Datetime.datetime) : Prop :=
  1 <= Datetime.year d <= 9999 /\ 1 <= Datetime.month d <= 12 /\
  1 <= Datetime.day d <= 31 /\ Datetime.hour d < 24 /\
  Datetime.minute d < 60 /\ Datetime.second d < 60 /\
  Datetime.microsecond d < 1000000.

(** A lowercase hexadecimal digit. *)
Definition is_hex (c : ascii) : bool :=
  Py.in_range 48 57 c || Py.in_range 97 102 c.

(** The canonical text of a version 4 UUID: [8-4-4-4-12] hexadecimal
    digits, the third group starting with [4], the fourth with one of
    [8], [9], [a], [b]. *)
Inductive uuid_item := Hex | Version | Variant | Hyphen.

Definition uuid_item_ok (i : uuid_item) (c : ascii) : bool :=
  match i with
  | Hex => is_hex c
  | Version => Ascii.eqb c "4"
  | Variant => Ascii.eqb c "8" || Ascii.eqb c "9" || Ascii.eqb c "a" || Ascii.eqb c "b"
  | Hyphen => Ascii.eqb c "-"
  end.

Definition uuid4_layout : list uuid_item :=
  replicate 8 Hex ++ [Hyphen] ++ replicate 4 Hex ++ [Hyphen] ++
  [Version] ++ replicate 3 Hex ++ [Hyphen] ++
  [Variant] ++ replicate 3 Hex ++ [Hyphen] ++ replicate 12 Hex.

Definition is_uuid4_text (s : string) : bool :=
  (length (Py.chars s) =? length uuid4_layout)%nat
  && forallb (fun '(i, c) => uuid_item_ok i c) (zip uuid4_layout (Py.chars s)).


(** The characters a format prescribes are none of them illegal. *)
Definition legal_format (fmt : list format_item) : bool :=
  forallb (fun item => match item with
                       | Digit => true
                       | Char a => negb (Openpyxl.illegal a)
                       end) fmt.

(** ** Sample data *)

(** A body with every field of the required shape and one field the
    schema does not know. *)
Definition sample_body : dict :=
  <["mobile_no" := VStr "9876543210"]> (
  <["shop_name" := VStr "Corner Store"]> (
  <["owner_name" := VStr "A. Rao"]> (
  <["ind_name" := VStr "Retail"]> (
  <["area_pin_code" := VStr "560001"]> (
  <["address" := VStr "12 Market Road"]> (
  <["city" := VStr "Bengaluru"]> (
  <["dist" := VStr "Bengaluru Urban"]> (
  <["state" := VStr "Karnataka"]> (
  <["country" := VStr "India"]> (
  <["is_admin" := VBool true]> ∅)))))))))).

(** The model validation makes of it. *)
Definition sample_input : FormSubmissionCreate.t :=
  FormSubmissionCreate.mk "9876543210" "Corner Store" "A. Rao" "Retail" "560001"
    "12 Market Road" "Bengaluru" "Bengaluru Urban" "Karnataka" "India".

Definition sample_clock : Datetime.datetime :=
  Datetime.mk_datetime 2024 3 7 9 5 0 123 None.

(** [n] submissions of the sample body, each with its own draw and
    [ObjectId]. *)
Definition sample_requests (n : nat) : list request :=
  (fun i => Create (N.of_nat i) sample_clock (N.of_nat i) sample_body) <$> seq 0 n.

(** ** Tactics *)

(** Membership in a list given by extension. *)
Ltac in_list := repeat first [apply list_elem_of_here | apply list_elem_of_further].


(** * The model on concrete inputs *)

Section Examples.

Example uuid4_zero :
  Uuid.str (Uuid.uuid4 0) = "00000000-0000-4000-8000-000000000000".
Proof. vm_compute. reflexivity. Qed.

Example uuid4_ones :
  Uuid.str (Uuid.uuid4 (2 ^ 128 - 1)) = "ffffffff-ffff-4fff-bfff-ffffffffffff".
Proof. vm_compute. reflexivity. Qed.

Example isoformat_with_microseconds :
  Datetime.isoformat (Datetime.now (Some Datetime.utc) sample_clock)
  = "2024-03-07T09:05:00.000123+00:00".
Proof. vm_compute. reflexivity. Qed.

Example isoformat_whole_second :
  Datetime.isoformat (Datetime.mk_datetime 1999 12 31 23 59 59 0 (Some Datetime.utc))
  = "1999-12-31T23:59:59+00:00".
Proof. vm_compute. reflexivity. Qed.

Example validate_collects_errors :
  FormSubmissionCreate.validate
    (<["mobile_no" := VStr "98765x3210"]> (
     <["shop_name" := VStr ""]> (
     <["city" := VInt 7]> (delete "state" sample_body))))
  = inl [ Pydantic.mk_error "mobile_no" Pydantic.string_pattern_mismatch;
          Pydantic.mk_error "shop_name" Pydantic.string_too_short;
          Pydantic.mk_error "city" Pydantic.string_type;
          Pydantic.mk_error "state" Pydantic.missing ].
Proof. vm_compute. reflexivity. Qed.

Example create_sample :
  (create_submission 5 sample_clock 77 sample_body []).1
  = Ok (FormSubmissionResponse.mk "00000000-0000-4000-8000-000000000005"
          "9876543210" "Corner Store" "A. Rao" "Retail" "560001" "12 Market Road"
          "Bengaluru" "Bengaluru Urban" "Karnataka" "India"
          "2024-03-07T09:05:00.000123+00:00").
Proof. vm_compute. reflexivity. Qed.

(** After creating A then B, List has both; after deleting A it has B
    alone. *)
Example create_list_delete :
  let after_create := run (sample_requests 2) in
  let after_delete :=
    handle after_create (Delete "00000000-0000-4000-8000-000000000000") in
  FormSubmissionResponse.id <$> match (get_submissions after_create).1 with
                                | Ok records => records
                                | Raise _ => []
                                end
  = [ "00000000-0000-4000-8000-000000000000";
      "00000000-0000-4000-8000-000000000001" ]
  /\ FormSubmissionResponse.id <$> match (get_submissions after_delete).1 with
                                  | Ok records => records
                                  | Raise _ => []
                                  end
     = [ "00000000-0000-4000-8000-000000000001" ].
Proof. split; vm_compute; reflexivity. Qed.

Example export_one_record :
  match (export_submissions_excel sample_clock (run (sample_requests 1))).1 with
  | Ok resp => Some (Openpyxl.values (sheet resp), content_disposition resp)
  | Raise _ => None
  end
  = Some ([ Openpyxl.Text <$> headers;
            [ Openpyxl.Number 1; Openpyxl.Text "9876543210";
              Openpyxl.Text "Corner Store"; Openpyxl.Text "A. Rao";
              Openpyxl.Text "Retail"; Openpyxl.Text "560001";
              Openpyxl.Text "12 Market Road"; Openpyxl.Text "Bengaluru";
              Openpyxl.Text "Bengaluru Urban"; Openpyxl.Text "Karnataka";
              Openpyxl.Text "India";
              Openpyxl.Text "2024-03-07T09:05:00.000123+00:00" ] ],
          "attachment; filename=form_submissions_20240307_090500.xlsx").
Proof. vm_compute. reflexivity. Qed.

End Examples.

(** * Strings and formatting *)

Section Strings.

Lemma length_append (s1 s2 : string) :
  String.length (s1 +:+ s2) = (String.length s1 + String.length s2)%nat.
Proof. induction s1 as [|c s1 IH]; simpl; [done | by rewrite IH]. Qed.

Lemma chars_app (s1 s2 : string) :
  Py.chars (s1 +:+ s2) = Py.chars s1 ++ Py.chars s2.
Proof. induction s1 as [|c s1 IH]; simpl; [done | by rewrite IH]. Qed.

Lemma append_inj_length (a a' b b' : string) :
  String.length a = String.length a' ->
  a +:+ b = a' +:+ b' -> a = a' /\ b = b'.
Proof.
  revert a'. induction a as [|c a IH]; intros [|c' a'] Hlen Heq;
    simpl in *; try discriminate; [done |].
  injection Heq as -> Heq. injection Hlen as Hlen.
  destruct (IH a' Hlen Heq) as [-> ->]. done.
Qed.

Lemma length_substring (i m : nat) (s : string) :
  (i + m <= String.length s)%nat -> String.length (String.substring i m s) = m.
Proof.
  revert i m. induction s as [|c s IH]; intros [|i] [|m] H; simpl in *;
    try lia; try done.
  - rewrite IH; [done | lia].
  - apply IH. lia.
  - apply IH. lia.
Qed.

Lemma substring_split (i m k : nat) (s : string) :
  (i + m + k <= String.length s)%nat ->
  String.substring i (m + k) s =
  String.substring i m s +:+ String.substring (i + m) k s.
Proof.
  revert i m k. induction s as [|c s IH]; intros [|i] [|m] k H; simpl in *;
    try lia; try done.
  - rewrite (IH 0%nat m k) by lia. reflexivity.
  - apply (IH i 0%nat). lia.
  - apply (IH i (S m)). lia.
Qed.

Lemma substring_all (s : string) : String.substring 0 (String.length s) s = s.
Proof. induction s as [|c s IH]; simpl; [done | by rewrite IH]. Qed.

Lemma prefix_short (n : N) (s : string) :
  (N.of_nat (String.length s) <= n) -> Py.prefix n s = s.
Proof.
  revert n. induction s as [|c s IH]; intros n H; simpl in *; [done |].
  destruct (N.eqb_spec n 0) as [->|Hn]; [lia |].
  rewrite IH; [done | lia].
Qed.

Lemma length_digits_be (base : N) (k : nat) (n : N) (acc : string) :
  String.length (Py.digits_be base k n acc) = (k + String.length acc)%nat.
Proof.
  revert n acc. induction k as [|k IH]; intros n acc; simpl; [done |].
  rewrite IH. simpl. lia.
Qed.

Lemma digit_char_inj (a b : N) :
  a < 16 -> b < 16 -> Py.digit_char a = Py.digit_char b -> a = b.
Proof.
  intros Ha Hb H.
  assert (Hcode : forall d, d < 16 ->
            N_of_ascii (Py.digit_char d) = if d <? 10 then 48 + d else 87 + d).
  { intros d Hd. unfold Py.digit_char.
    destruct (N.ltb_spec d 10); apply N_ascii_embedding; lia. }
  apply (f_equal N_of_ascii) in H. rewrite !Hcode in H by done.
  destruct (N.ltb_spec a 10), (N.ltb_spec b 10); lia.
Qed.

Lemma digits_be_inj (base : N) (k : nat) (n m : N) (acc acc' : string) :
  1 < base <= 16 ->
  String.length acc = String.length acc' ->
  Py.digits_be base k n acc = Py.digits_be base k m acc' ->
  n mod base ^ N.of_nat k = m mod base ^ N.of_nat k /\ acc = acc'.
Proof.
  intros Hb. revert n m acc acc'.
  induction k as [|k IH]; intros n m acc acc' Hlen H; simpl in H.
  - simpl. rewrite !N.mod_1_r. done.
  - apply IH in H as [Hhi Hacc]; [| simpl; lia].
    injection Hacc as Hd ->. split; [| done].
    apply digit_char_inj in Hd;
      [| pose proof (N.mod_lt n base); lia | pose proof (N.mod_lt m base); lia].
    rewrite Nat2N.inj_succ, N.pow_succ_r'.
    rewrite !N.Div0.mod_mul_r. congruence.
Qed.

End Strings.

(** * Identifiers *)

Section Identifiers.

Lemma length_fmt_0x (k : nat) (n : N) : String.length (Py.fmt_0x k n) = k.
Proof. unfold Py.fmt_0x. rewrite length_digits_be. simpl. lia. Qed.

Lemma length_slice (i j : nat) (s : string) :
  (i <= j <= String.length s)%nat -> String.length (Py.slice i j s) = (j - i)%nat.
Proof. intros H. unfold Py.slice. apply length_substring. lia. Qed.

Lemma slice_split (i j k : nat) (s : string) :
  (i <= j <= k)%nat -> (k <= String.length s)%nat ->
  Py.slice i k s = Py.slice i j s +:+ Py.slice j k s.
Proof.
  intros H Hk. unfold Py.slice.
  replace (k - i)%nat with ((j - i) + (k - j))%nat by lia.
  rewrite substring_split by lia. do 2 f_equal. lia.
Qed.

Lemma uuid_str_length (int : N) : String.length (Uuid.str int) = 36%nat.
Proof.
  unfold Uuid.str. rewrite !length_append, !length_slice;
    rewrite ?length_fmt_0x; simpl; lia.
Qed.

Lemma uuid_str_nonempty (int : N) : Uuid.str int <> "".
Proof.
  intros H. pose proof (uuid_str_length int) as Hl. rewrite H in Hl. done.
Qed.

(** The hyphenated form determines the 32 hexadecimal digits. *)
Lemma uuid_str_hex (a b : N) :
  Uuid.str a = Uuid.str b -> Py.fmt_0x 32 a = Py.fmt_0x 32 b.
Proof.
  unfold Uuid.str. intros H.
  pose proof (length_fmt_0x 32 a) as La. pose proof (length_fmt_0x 32 b) as Lb.
  set (ha := Py.fmt_0x 32 a) in *. set (hb := Py.fmt_0x 32 b) in *.
  assert (Hcut : forall h, String.length h = 32%nat ->
            h = Py.slice 0 8 h +:+ Py.slice 8 12 h +:+ Py.slice 12 16 h +:+
                Py.slice 16 20 h +:+ Py.slice 20 32 h).
  { intros h Hh.
    rewrite <- (slice_split 16 20 32), <- (slice_split 12 16 32),
      <- (slice_split 8 12 32), <- (slice_split 0 8 32) by lia.
    unfold Py.slice. change (32 - 0)%nat with 32%nat. rewrite <- Hh.
    symmetry. apply substring_all. }
  apply append_inj_length in H as [H1 H]; [| rewrite !length_slice; lia].
  apply (append_inj_length "-" "-") in H as [_ H]; [| done].
  apply append_inj_length in H as [H2 H]; [| rewrite !length_slice; lia].
  apply (append_inj_length "-" "-") in H as [_ H]; [| done].
  apply append_inj_length in H as [H3 H]; [| rewrite !length_slice; lia].
  apply (append_inj_length "-" "-") in H as [_ H]; [| done].
  apply append_inj_length in H as [H4 H]; [| rewrite !length_slice; lia].
  apply (append_inj_length "-" "-") in H as [_ H5]; [| done].
  rewrite (Hcut ha La), (Hcut hb Lb). congruence.
Qed.

Lemma uuid_str_inj (a b : N) :
  a < 2 ^ 128 -> b < 2 ^ 128 -> Uuid.str a = Uuid.str b -> a = b.
Proof.
  intros Ha Hb H. apply uuid_str_hex in H. unfold Py.fmt_0x in H.
  apply digits_be_inj in H as [H _]; [| lia | done].
  change (16 ^ N.of_nat 32) with (2 ^ 128) in H.
  by rewrite !N.mod_small in H.
Qed.

Lemma uuid4_bound (r : N) : r < 2 ^ 128 -> Uuid.uuid4 r < 2 ^ 128.
Proof.
  intros Hr. unfold Uuid.uuid4.
  assert (Hlt : forall n, n < 2 ^ 128 <-> forall i, 128 <= i -> N.testbit n i = false).
  { intros n. split.
    - intros Hn i Hi. destruct (N.eq_dec n 0) as [->|Hn0]; [apply N.bits_0 |].
      apply N.bits_above_log2. apply N.log2_lt_pow2 in Hn; lia.
    - intros Hbits. destruct (N.eq_dec n 0) as [->|Hn0]; [done |].
      apply N.log2_lt_pow2; [lia |].
      destruct (N.lt_ge_cases (N.log2 n) 128) as [|Hge]; [done |].
      specialize (Hbits (N.log2 n) Hge). rewrite N.bit_log2 in Hbits by done.
      done. }
  apply Hlt. intros i Hi.
  rewrite N.lor_spec, N.ldiff_spec, N.lor_spec, N.ldiff_spec.
  rewrite (proj1 (Hlt r) Hr i Hi).
  rewrite (proj1 (Hlt (N.shiftl 0x8000 48)) ltac:(done) i Hi).
  rewrite (proj1 (Hlt (N.shiftl 4 76)) ltac:(done) i Hi).
  done.
Qed.

(** Two draws give the same identifier exactly when they give the same
    UUID. *)
Lemma uuid4_str_eq_iff (r1 r2 : N) :
  r1 < 2 ^ 128 -> r2 < 2 ^ 128 ->
  Uuid.str (Uuid.uuid4 r1) = Uuid.str (Uuid.uuid4 r2) <->
  Uuid.uuid4 r1 = Uuid.uuid4 r2.
Proof.
  intros H1 H2. split; [| by intros ->].
  apply uuid_str_inj; by apply uuid4_bound.
Qed.

End Identifiers.

(** * Validation *)

Section Validation.

Lemma is_match_digits (n : nat) (s : string) :
  Pydantic.is_match (Pydantic.digits_exactly n) s = true <-> exactly_n_digits n s.
Proof.
  unfold Pydantic.is_match, exactly_n_digits.
  rewrite andb_true_iff, Nat.eqb_eq, forallb_forall.
  apply and_iff_compat_l. apply forall_proper; intros c.
  unfold Pydantic.is_digit, Py.in_range.
  rewrite andb_true_iff, !N.leb_le. done.
Qed.

Lemma validate_str_inr (f : Pydantic.Field) (v : pyval) (s : string) :
  Pydantic.validate_str f v = inr s <-> v = VStr s /\ accepts f s.
Proof.
  unfold accepts. split.
  - destruct v as [| | |s0| | | |]; simpl; try discriminate.
    destruct (match Pydantic.min_length f with Some _ => _ | None => _ end) eqn:H1;
      [discriminate |].
    destruct (match Pydantic.max_length f with Some _ => _ | None => _ end) eqn:H2;
      [discriminate |].
    destruct (match Pydantic.pattern_of f with Some _ => _ | None => _ end) eqn:H3;
      [discriminate |].
    intros [= ->]. by rewrite H1, H2, H3.
  - by intros [-> ?].
Qed.

Lemma accepts_digits (n : nat) (s : string) :
  accepts (FormSubmissionCreate.digits n) s <-> exactly_n_digits n s.
Proof.
  rewrite <- is_match_digits. unfold accepts.
  unfold Pydantic.validate_str, FormSubmissionCreate.digits.
  cbn [Pydantic.min_length Pydantic.max_length Pydantic.pattern_of].
  destruct (Pydantic.is_match (Pydantic.digits_exactly n) s) eqn:Hm.
  - pose proof Hm as Hm'. cbn [Pydantic.is_match] in Hm'.
    apply andb_true_iff in Hm' as [Hl _]. apply Nat.eqb_eq in Hl.
    rewrite Hl, Nat.ltb_irrefl. done.
  - destruct (_ <? n)%nat; [done |]. destruct (n <? _)%nat; done.
Qed.

Lemma accepts_text (s : string) : accepts FormSubmissionCreate.text s <-> non_empty s.
Proof.
  unfold accepts, non_empty. simpl. destruct s; simpl; split; done.
Qed.

Lemma accepts_shape (name : string) (f : Pydantic.Field) (s : string) :
  (name, f) ∈ FormSubmissionCreate.fields -> accepts f s <-> shape name s.
Proof.
  unfold FormSubmissionCreate.fields. rewrite !elem_of_cons, elem_of_nil.
  intros H. unfold shape.
  repeat (destruct H as [[= -> ->] | H]; [first
    [ rewrite decide_True by done; apply accepts_digits
    | rewrite decide_False, decide_True by done; apply accepts_digits
    | rewrite !decide_False by done; apply accepts_text ] |]).
  done.
Qed.

(** A required [str] field either yields its string or one error that
    names it. *)
Lemma required_str_cases (name : string) (f : Pydantic.Field) (data : dict) :
  (exists s, data !! name = Some (VStr s) /\ accepts f s /\
     Pydantic.required name (Pydantic.validate_str f) data = ([], Some s))
  \/ (exists e, Pydantic.required name (Pydantic.validate_str f) data
                = ([Pydantic.mk_error name e], None) /\
        ~ exists s, data !! name = Some (VStr s) /\ accepts f s).
Proof.
  unfold Pydantic.required. destruct (data !! name) as [v|] eqn:Hv.
  - destruct (Pydantic.validate_str f v) as [e|s] eqn:Hs; simpl.
    + right. exists e. split; [done |]. intros (s & [= ->] & Hacc).
      unfold accepts in Hacc. congruence.
    + apply validate_str_inr in Hs as [-> Hacc]. left. by exists s.
  - right. exists Pydantic.missing. split; [done |]. by intros (s & ? & _).
Qed.

Lemma required_str_ok (name : string) (f : Pydantic.Field) (data : dict) (s : string) :
  Pydantic.required name (Pydantic.validate_str f) data = ([], Some s) <->
  data !! name = Some (VStr s) /\ accepts f s.
Proof.
  destruct (required_str_cases name f data) as [(s' & Hl & Ha & ->) | (e & -> & Hn)].
  - split; [by intros [= <-] | intros [Hl' _]; congruence].
  - split; [done | intros H; destruct Hn; eauto].
Qed.

Lemma vap_ok {A B} (f : Pydantic.validated (A -> B)) (x : Pydantic.validated A) (b : B) :
  f <*> x = ([], Some b) <->
  exists g a, f = ([], Some g) /\ x = ([], Some a) /\ b = g a.
Proof.
  destruct f as [ef [g|]], x as [ex [a|]]; unfold Pydantic.vap; simpl; split.
  all: try (intros [= H1 H2]; apply app_eq_nil in H1 as [-> ->]; eauto).
  all: try (intros [= H1]; apply app_eq_nil in H1 as [-> ->]; done).
  all: intros (g' & a' & [= ? ?] & [= ? ?] & ->); subst; done.
Qed.

Lemma finish_inr {A} (v : Pydantic.validated A) (a : A) :
  Pydantic.finish v = inr a <-> v = ([], Some a).
Proof.
  destruct v as [[|e es] [a'|]]; simpl; split; intros H; by simplify_eq.
Qed.

End Validation.

Section CreateValidation.

Import FormSubmissionCreate.

(** The body is accepted exactly when each field has its string and the
    string meets the field's constraints; the model then holds these
    strings. *)
Lemma validate_inr (body : dict) (input : t) :
  validate body = inr input <->
  forall name f, (name, f) ∈ fields ->
    exists s, body !! name = Some (VStr s) /\ accepts f s /\
              model_dump input !! name = Some (VStr s).
Proof.
  unfold validate. rewrite finish_inr. split.
  - intros H.
    repeat (apply vap_ok in H as (? & ? & H & ?%required_str_ok & ->)).
    injection H as <-.
    intros name f. unfold fields. rewrite !elem_of_cons, elem_of_nil.
    intros Hin.
    repeat (destruct Hin as [[= -> ->] | Hin];
            [match goal with
             | Hf : body !! ?n = Some (VStr ?x) /\ _ |- exists s, body !! ?n = _ /\ _ =>
                 exists x; destruct Hf; split; [done | split; [done | reflexivity]]
             end |]).
    done.
  - intros H. destruct input.
    unfold str_field.
    repeat match goal with
    | |- context [Pydantic.required ?name (Pydantic.validate_str ?f) body] =>
        let s := fresh "s" in let Hl := fresh "Hl" in
        let Ha := fresh "Ha" in let Hd := fresh "Hd" in
        destruct (H name f) as (s & Hl & Ha & Hd);
        [unfold fields; repeat constructor |];
        vm_compute in Hd; injection Hd as <-;
        rewrite (proj2 (required_str_ok name f body _) (conj Hl Ha))
    end.
    reflexivity.
Qed.

End CreateValidation.

Section Create.

Lemma create_accepted (urandom : N) (clock : Datetime.datetime) (object_id : N)
    (body : dict) (db : Mongo.collection) (input : FormSubmissionCreate.t) :
  FormSubmissionCreate.validate body = inr input ->
  let id := Uuid.str (Uuid.uuid4 urandom) in
  let created_at := Datetime.isoformat (Datetime.now (Some Datetime.utc) clock) in
  create_submission urandom clock object_id body db =
  (Ok (record_response id input created_at),
   db ++ [<["_id" := VObjectId object_id]> (record_doc id input created_at)]).
Proof.
  intros H. cbv zeta. unfold create_submission. rewrite H.
  generalize (Uuid.str (Uuid.uuid4 urandom)). intros id.
  generalize (Datetime.now (Some Datetime.utc) clock). intros now.
  destruct input as [s1 s2 s3 s4 s5 s6 s7 s8 s9 s10].
  assert (FormSubmission.validate id now
            (FormSubmissionCreate.model_dump
               (FormSubmissionCreate.mk s1 s2 s3 s4 s5 s6 s7 s8 s9 s10))
          = inr (FormSubmission.mk id s1 s2 s3 s4 s5 s6 s7 s8 s9 s10 now)) as ->
    by (vm_compute; reflexivity).
  assert (getitem (FormSubmission.model_dump
                     (FormSubmission.mk id s1 s2 s3 s4 s5 s6 s7 s8 s9 s10 now))
            "created_at" = Ok (VDatetime now)) as ->
    by (vm_compute; reflexivity).
  cbn [obind isoformat_of].
  generalize (Datetime.isoformat now). intros iso.
  vm_compute. reflexivity.
Qed.

Lemma create_rejected (urandom : N) (clock : Datetime.datetime) (object_id : N)
    (body : dict) (db : Mongo.collection) (errs : list Pydantic.error_details) :
  FormSubmissionCreate.validate body = inl errs ->
  create_submission urandom clock object_id body db =
  (Raise (RequestValidationError errs), db).
Proof. intros H. unfold create_submission. by rewrite H. Qed.

End Create.

(** * The collection *)

Section Collection.

Implicit Types (db c : Mongo.collection) (d : dict).

Lemma delete_one_none (key x : string) c :
  Forall (fun d => Mongo.matches key x d = false) c ->
  Mongo.delete_one key x c = (O, c).
Proof.
  induction 1 as [|d c Hd _ IH]; simpl; [done |]. by rewrite Hd, IH.
Qed.

(** The two outcomes of [delete_one]. *)
Lemma delete_one_cases (key x : string) c :
  (Forall (fun d => Mongo.matches key x d = false) c /\
   Mongo.delete_one key x c = (O, c))
  \/ (exists c1 d c2, c = c1 ++ d :: c2 /\
        Forall (fun d => Mongo.matches key x d = false) c1 /\
        Mongo.matches key x d = true /\
        Mongo.delete_one key x c = (1%nat, c1 ++ c2)).
Proof.
  induction c as [|d c IH].
  - left. by split.
  - destruct (Mongo.matches key x d) eqn:Hd.
    + right. exists [], d, c. simpl. by rewrite Hd.
    + destruct IH as [[Hall Heq] | (c1 & d' & c2 & -> & Hall & Hd' & Heq)].
      * left. split; [by constructor |]. simpl. by rewrite Hd, Heq.
      * right. exists (d :: c1), d', c2.
        split; [done |]. split; [by constructor |]. split; [done |].
        simpl. by rewrite Hd, Heq.
Qed.

Lemma delete_submission_eq (x : string) db :
  delete_submission x db =
  (Ok (if ((Mongo.delete_one "id" x db).1 =? 0)%nat
       then mk_delete false "Submission not found"
       else mk_delete true "Submission deleted"),
   (Mongo.delete_one "id" x db).2).
Proof.
  unfold delete_submission. destruct (Mongo.delete_one "id" x db) as [n db'].
  simpl. by destruct (n =? 0)%nat.
Qed.

(** Every request leaves the collection as it is, appends one whole
    document, or removes one whole document. *)
Lemma handle_cases db (r : request) :
  handle db r = db
  \/ (exists urandom clock object_id body input,
        r = Create urandom clock object_id body /\
        FormSubmissionCreate.validate body = inr input /\
        handle db r = db ++ [created_doc urandom clock object_id input])
  \/ (exists x c1 d c2,
        r = Delete x /\ db = c1 ++ d :: c2 /\
        Forall (fun d => Mongo.matches "id" x d = false) c1 /\
        Mongo.matches "id" x d = true /\
        handle db r = c1 ++ c2).
Proof.
  destruct r as [urandom clock object_id body | | clock | x]; simpl.
  - destruct (FormSubmissionCreate.validate body) as [errs|input] eqn:Hv.
    + left. by rewrite (create_rejected _ _ _ _ _ errs).
    + right. left. exists urandom, clock, object_id, body, input.
      by rewrite (create_accepted _ _ _ _ _ input).
  - by left.
  - by left.
  - rewrite delete_submission_eq. simpl.
    destruct (delete_one_cases "id" x db)
      as [[_ ->] | (c1 & d & c2 & -> & Hall & Hd & ->)]; [by left |].
    right. right. by exists x, c1, d, c2.
Qed.

Lemma run_snoc (rs : list request) (r : request) :
  run (rs ++ [r]) = handle (run rs) r.
Proof. unfold run. by rewrite foldl_app. Qed.

(** Every stored document was put there, as it is, by a [Create] of the
    history. *)
Lemma run_documents (rs : list request) d :
  d ∈ run rs ->
  exists urandom clock object_id body input,
    Create urandom clock object_id body ∈ rs /\
    FormSubmissionCreate.validate body = inr input /\
    d = created_doc urandom clock object_id input.
Proof.
  revert d. induction rs as [|r rs IH] using rev_ind; intros d.
  - by intros ?%elem_of_nil.
  - rewrite run_snoc.
    assert (Hold : d ∈ run rs ->
              exists urandom clock object_id body input,
                Create urandom clock object_id body ∈ rs ++ [r] /\
                FormSubmissionCreate.validate body = inr input /\
                d = created_doc urandom clock object_id input).
    { intros (u & c & o & b & i & Hin & Hv & ->)%IH.
      exists u, c, o, b, i. rewrite elem_of_app. auto. }
    destruct (handle_cases (run rs) r)
      as [-> | [(u & c & o & b & i & -> & Hv & ->)
               | (x & c1 & d' & c2 & -> & Hdb & _ & _ & ->)]].
    + done.
    + rewrite elem_of_app, list_elem_of_singleton. intros [Hd | ->]; [auto |].
      exists u, c, o, b, i. rewrite elem_of_app, list_elem_of_singleton. auto.
    + intros Hd. apply Hold. rewrite Hdb.
      rewrite elem_of_app, elem_of_cons. rewrite elem_of_app in Hd. tauto.
Qed.

Lemma created_doc_id (urandom : N) (clock : Datetime.datetime)
    (object_id : N) (input : FormSubmissionCreate.t) :
  created_doc urandom clock object_id input !! "id"
  = Some (VStr (Uuid.str (Uuid.uuid4 urandom))).
Proof. done. Qed.

Lemma matches_id (x : string) d (s : string) :
  d !! "id" = Some (VStr s) -> Mongo.matches "id" x d = String.eqb s x.
Proof. intros H. unfold Mongo.matches. by rewrite H. Qed.

End Collection.

(** * The worksheet *)

Section Worksheet.

Local Open Scope nat_scope.

Implicit Types (ws : Openpyxl.worksheet) (rows prev : list (list Openpyxl.cell_value)).

Lemma cell_fresh (r c : nat) (v : pyval) (cv : Openpyxl.cell_value) ws :
  1 <= r -> 1 <= c -> ws !! (r, c) = None ->
  Openpyxl.bind_value v = Ok cv ->
  Openpyxl.cell r c v ws = Ok (<[(r, c) := cv]> ws).
Proof.
  intros Hr Hc Hnone Hv. unfold Openpyxl.cell.
  destruct (Nat.ltb_spec r 1); [lia |]. destruct (Nat.ltb_spec c 1); [lia |].
  simpl. rewrite Hnone.
  destruct v; try (rewrite Hv; simpl; by rewrite insert_insert_eq).
  by injection Hv as <-.
Qed.

Lemma grid_at_snoc_cell prev (done : list Openpyxl.cell_value)
    (cv : Openpyxl.cell_value) (r c : nat) :
  grid_at (prev ++ [done ++ [cv]]) r c =
  if decide ((r, c) = (S (length prev), S (length done))) then Some cv
  else grid_at (prev ++ [done]) r c.
Proof.
  destruct r as [|r], c as [|c]; simpl;
    try done; try (case_decide as Heq; [by inversion Heq | done]).
  destruct (decide (r = length prev)) as [->|Hr].
  - rewrite !list_lookup_middle by done. simpl.
    destruct (decide (c = length done)) as [->|Hc].
    + rewrite decide_True by done. by rewrite list_lookup_middle.
    + rewrite decide_False by congruence.
      destruct (Nat.lt_ge_cases c (length done)).
      * by rewrite lookup_app_l.
      * rewrite !lookup_ge_None_2; [done | lia |].
        rewrite length_app. simpl. lia.
  - rewrite decide_False by congruence.
    destruct (Nat.lt_ge_cases r (length prev)).
    + by rewrite !lookup_app_l.
    + rewrite !lookup_ge_None_2; [done | |]; rewrite length_app; simpl; lia.
Qed.

Lemma grid_at_snoc_nil prev (r c : nat) :
  grid_at (prev ++ [[]]) r c = grid_at prev r c.
Proof.
  destruct r as [|r], c as [|c]; simpl; try done.
  destruct (Nat.lt_ge_cases r (length prev)).
  - by rewrite lookup_app_l.
  - rewrite (lookup_ge_None_2 prev) by done.
    destruct (decide (r = length prev)) as [->|].
    + by rewrite list_lookup_middle.
    + rewrite lookup_ge_None_2; [done |]. rewrite length_app. simpl. lia.
Qed.

(** Writing the remaining values of a row into a sheet that holds the
    rows before it and the cells of the row written so far. *)
Lemma write_cells prev (vals : list pyval) (cs done : list Openpyxl.cell_value) ws :
  Forall2 (fun v c => Openpyxl.bind_value v = Ok c) vals cs ->
  holds ws (prev ++ [done]) ->
  exists ws',
    for_fold (fun ws '(col, value) => Openpyxl.cell (S (length prev)) col value ws)
      ws (enumerate (S (length done)) vals) = Ok ws'
    /\ holds ws' (prev ++ [done ++ cs]).
Proof.
  intros H. revert done ws.
  induction H as [|v cv vals cs Hv _ IH]; intros done ws Hws.
  - exists ws. rewrite app_nil_r. done.
  - simpl. rewrite (cell_fresh _ _ v cv); [| lia | lia | | done].
    + simpl.
      destruct (IH (done ++ [cv]) (<[(S (length prev), S (length done)) := cv]> ws))
        as (ws' & Hfold & Hholds).
      * intros r c. rewrite grid_at_snoc_cell, lookup_insert.
        case_decide as Heq; [by rewrite decide_True |].
        rewrite decide_False by done. apply Hws.
      * exists ws'. rewrite length_app in Hfold. simpl in Hfold.
        replace (length done + 1) with (S (length done)) in Hfold by lia.
        split; [done |]. by rewrite <- app_assoc in Hholds.
    + rewrite Hws. simpl. rewrite list_lookup_middle by done. simpl.
      by apply lookup_ge_None_2.
Qed.

Lemma write_row_holds prev (vals : list pyval) (cs : list Openpyxl.cell_value) ws :
  Forall2 (fun v c => Openpyxl.bind_value v = Ok c) vals cs ->
  holds ws prev ->
  exists ws',
    write_row (S (length prev)) vals ws = Ok ws' /\ holds ws' (prev ++ [cs]).
Proof.
  intros H Hws. unfold write_row.
  apply (write_cells prev vals cs [] ws H).
  intros r c. rewrite grid_at_snoc_nil. apply Hws.
Qed.


Lemma storableb_storable (d : dict) : storableb d = true -> storable d.
Proof.
  unfold storableb, storable. rewrite forallb_forall.
  intros H k v Hk%list_elem_of_In Hv. specialize (H k Hk). rewrite Hv in H.
  unfold storable_value. destruct (Openpyxl.bind_value v) as [c|]; [by exists c | done].
Qed.

Lemma storableb_Forall (ds : list dict) :
  forallb storableb ds = true -> Forall storable ds.
Proof.
  rewrite forallb_forall, Forall_forall.
  intros H d Hd%list_elem_of_In. by apply storableb_storable, H.
Qed.

Lemma bind_value_text (s : string) :
  cell_text s -> Openpyxl.bind_value (VStr s) = Ok (Openpyxl.Text s).
Proof.
  intros [Hlen Hlegal]. simpl. unfold Openpyxl.check_string.
  rewrite prefix_short by done.
  destruct (existsb Openpyxl.illegal (Py.chars s)) eqn:Hex; [| done].
  apply existsb_exists in Hex as (c & Hc & Hill). by rewrite (Hlegal c Hc) in Hill.
Qed.

Lemma bind_value_get (d : dict) (k : string) :
  storable d -> k ∈ exported_fields ->
  Openpyxl.bind_value (dict_get d k (VStr "")) =
  Ok (match d !! k with Some v => cell_of v | None => Openpyxl.Text "" end).
Proof.
  intros Hd Hk. unfold dict_get. destruct (d !! k) as [v|] eqn:Hv; [| done].
  destruct (Hd k v Hk Hv) as [c Hc]. unfold cell_of. by rewrite Hc.
Qed.

Lemma row_data_cells (i : nat) (d : dict) :
  storable d ->
  Forall2 (fun v c => Openpyxl.bind_value v = Ok c)
    (row_data (S (S i)) d) (data_row i d).
Proof.
  intros Hd. unfold row_data, data_row, exported_fields.
  constructor; [simpl; do 2 f_equal; lia |].
  repeat (constructor;
          [apply bind_value_get; [done | unfold exported_fields; repeat constructor] |]).
  constructor.
Qed.

(** The loop over the submissions, on a sheet that holds the rows written
    before. *)
Lemma write_data_rows (subs : list dict) prev (i : nat) ws :
  length prev = S i ->
  Forall storable subs ->
  holds ws prev ->
  exists ws',
    for_fold (fun ws '(row_idx, sub) => write_row row_idx (row_data row_idx sub) ws)
      ws (enumerate (S (length prev)) subs) = Ok ws'
    /\ holds ws' (prev ++ imap (fun j d => data_row (i + j) d) subs).
Proof.
  intros Hlen Hsubs. revert prev i ws Hlen.
  induction Hsubs as [|d subs Hd _ IH]; intros prev i ws Hlen Hws.
  - exists ws. rewrite app_nil_r. done.
  - simpl.
    destruct (write_row_holds prev (row_data (S (length prev)) d) (data_row i d) ws)
      as (ws1 & -> & Hws1); [rewrite Hlen; by apply row_data_cells | done |].
    simpl.
    destruct (IH (prev ++ [data_row i d]) (S i) ws1) as (ws' & Hfold & Hws');
      [rewrite length_app; simpl; lia | done |].
    exists ws'. rewrite length_app in Hfold. simpl in Hfold.
    replace (length prev + 1) with (S (length prev)) in Hfold by lia.
    split; [done |].
    rewrite <- app_assoc in Hws'. simpl in Hws'.
    rewrite Nat.add_0_r.
    erewrite imap_ext; [exact Hws' |]. intros j x _. simpl. f_equal. lia.
Qed.

Lemma header_cells :
  Forall2 (fun v c => Openpyxl.bind_value v = Ok c) (VStr <$> headers) header_row.
Proof. unfold headers, header_row. simpl. repeat constructor. Qed.

(** The rows of the exported sheet. *)
Lemma export_holds (clock : Datetime.datetime) (db : Mongo.collection) :
  Forall storable (Mongo.find_to_list "_id" 1000 db) ->
  exists resp,
    export_submissions_excel clock db = (Ok resp, db) /\
    holds (sheet resp)
      (header_row :: imap data_row (Mongo.find_to_list "_id" 1000 db)).
Proof.
  intros Hsubs. unfold export_submissions_excel. cbv zeta.
  destruct (write_row_holds [] (VStr <$> headers) header_row ∅)
    as (ws1 & Hw1 & Hws1); [apply header_cells | by intros [|r] [|c] |].
  change (S (length [])) with 1 in Hw1. rewrite Hw1.
  change ([] ++ [header_row]) with [header_row] in Hws1.
  destruct (write_data_rows (Mongo.find_to_list "_id" 1000 db) [header_row] 0 ws1)
    as (ws2 & Hw2 & Hws2); [done | done | done |].
  change (S (length [header_row])) with 2 in Hw2.
  cbn [obind]. rewrite Hw2. cbn [obind].
  eexists. split; [reflexivity |]. exact Hws2.
Qed.

Lemma max_list_bound (m : nat) (ns : list nat) :
  m ∈ ns -> (forall n, n ∈ ns -> n <= m) -> max_list ns = m.
Proof.
  intros Hin Hle. apply Nat.le_antisymm.
  - apply Hle. apply max_list_elem_of. by intros ->; apply elem_of_nil in Hin.
  - by apply max_list_elem_of_le.
Qed.

(** Reading back a sheet that holds a rectangle of rows. *)
Lemma values_holds ws rows (n : nat) :
  rows <> [] -> 1 <= n -> Forall (fun row => length row = n) rows ->
  holds ws rows -> Openpyxl.values ws = rows.
Proof.
  intros Hne Hn Hrect Hws.
  assert (Hkeys : forall r c, (r, c) ∈ (map_to_list ws).*1 <->
                    exists r' c', r = S r' /\ c = S c' /\ r' < length rows /\ c' < n).
  { intros r c. rewrite list_elem_of_fmap. split.
    - intros ([[r0 c0] cv] & [= -> ->] & Hin%elem_of_map_to_list).
      rewrite Hws in Hin. destruct r0 as [|r'], c0 as [|c']; try done.
      simpl in Hin. destruct (rows !! r') as [row|] eqn:Hrow; [| done].
      simpl in Hin. exists r', c'. split; [done |]. split; [done |].
      split; [by eapply lookup_lt_Some |].
      rewrite Forall_lookup in Hrect. rewrite <- (Hrect r' row Hrow).
      by eapply lookup_lt_Some.
    - intros (r' & c' & -> & -> & Hr & Hc).
      destruct (lookup_lt_is_Some_2 rows r' Hr) as [row Hrow].
      rewrite Forall_lookup in Hrect. pose proof (Hrect r' row Hrow) as Hl.
      destruct (lookup_lt_is_Some_2 row c') as [cv Hcv]; [lia |].
      exists ((S r', S c'), cv). split; [done |].
      apply elem_of_map_to_list. rewrite Hws. simpl. rewrite Hrow. done. }
  assert (Hlen : 1 <= length rows) by (destruct rows; [done | simpl; lia]).
  assert (Hmr : Openpyxl.max_row ws = length rows).
  { unfold Openpyxl.max_row. apply max_list_bound.
    - apply list_elem_of_further. apply list_elem_of_fmap.
      exists (length rows, 1). split; [done |]. apply Hkeys.
      exists (length rows - 1), 0. repeat split; lia.
    - intros r [-> | Hr]%elem_of_cons; [done |].
      apply list_elem_of_fmap in Hr as ([r0 c0] & -> & Hin).
      apply Hkeys in Hin as (r' & c' & -> & -> & ? & ?). simpl. lia. }
  assert (Hmc : Openpyxl.max_column ws = n).
  { unfold Openpyxl.max_column. apply max_list_bound.
    - apply list_elem_of_further. apply list_elem_of_fmap.
      exists (1, n). split; [done |]. apply Hkeys.
      exists 0, (n - 1). repeat split; lia.
    - intros c [-> | Hc]%elem_of_cons; [done |].
      apply list_elem_of_fmap in Hc as ([r0 c0] & -> & Hin).
      apply Hkeys in Hin as (r' & c' & -> & -> & ? & ?). simpl. lia. }
  unfold Openpyxl.values. cbv zeta. rewrite Hmr, Hmc.
  apply list_eq. intros i. rewrite list_lookup_fmap.
  destruct (Nat.lt_ge_cases i (length rows)) as [Hi|Hi].
  - rewrite lookup_seq_lt by done. simpl.
    destruct (lookup_lt_is_Some_2 rows i Hi) as [row Hrow]. rewrite Hrow.
    f_equal. rewrite Forall_lookup in Hrect. pose proof (Hrect i row Hrow) as Hl.
    apply list_eq. intros j. rewrite list_lookup_fmap.
    destruct (Nat.lt_ge_cases j n) as [Hj|Hj].
    + rewrite lookup_seq_lt by done. simpl. rewrite Hws. simpl. rewrite Hrow. simpl.
      destruct (lookup_lt_is_Some_2 row j) as [cv Hcv]; [lia |]. by rewrite Hcv.
    + rewrite lookup_seq_ge by done. simpl. symmetry. apply lookup_ge_None_2. lia.
  - rewrite lookup_seq_ge by done. simpl. symmetry. by apply lookup_ge_None_2.
Qed.

End Worksheet.

Section Timestamps.

Lemma is_digit_digit_char (n : N) :
  Pydantic.is_digit (Py.digit_char (n mod 10)) = true.
Proof.
  pose proof (N.mod_lt n 10 ltac:(done)) as H.
  unfold Pydantic.is_digit, Py.in_range, Py.digit_char.
  set (d := n mod 10) in *.
  destruct (N.ltb_spec d 10); [| lia].
  rewrite N_ascii_embedding by lia.
  apply andb_true_iff. rewrite !N.leb_le. lia.
Qed.

Lemma matches_format_app (f1 f2 : list format_item) (s1 s2 : list ascii) :
  matches_format f1 s1 = true -> matches_format f2 s2 = true ->
  matches_format (f1 ++ f2) (s1 ++ s2) = true.
Proof.
  revert s1. induction f1 as [|[|a] f1 IH]; intros [|c s1]; simpl; try done.
  - intros [-> H]%andb_true_iff ?. simpl. by apply IH.
  - intros [-> H]%andb_true_iff ?. simpl. by apply IH.
Qed.

Lemma matches_digits (k : nat) (n : N) (fmt : list format_item) (acc : string) :
  matches_format fmt (Py.chars acc) = true ->
  matches_format (replicate k Digit ++ fmt) (Py.chars (Py.digits_be 10 k n acc)) = true.
Proof.
  revert n fmt acc. induction k as [|k IH]; intros n fmt acc H; [done |].
  replace (replicate (S k) Digit ++ fmt)
    with (replicate k Digit ++ Digit :: fmt).
  - cbn [Py.digits_be]. apply IH. simpl. by rewrite is_digit_digit_char.
  - clear. induction k; simpl; [done | by f_equal].
Qed.

(** [isoformat] of an aware UTC datetime is an ISO 8601 string. *)
Lemma isoformat_utc_iso8601 (clock : Datetime.datetime) :
  is_iso8601_utc (Datetime.isoformat (Datetime.now (Some Datetime.utc) clock)) = true.
Proof.
  unfold is_iso8601_utc, Datetime.isoformat, Datetime.now, Py.fmt_0d.
  cbn [Datetime.year Datetime.month Datetime.day Datetime.hour Datetime.minute
       Datetime.second Datetime.microsecond Datetime.tz].
  assert (Hd : forall k n,
            matches_format (replicate k Digit)
              (Py.chars (Py.digits_be 10 k n "")) = true).
  { intros k n. rewrite <- (app_nil_r (replicate k Digit)). by apply matches_digits. }
  apply orb_true_iff.
  destruct (Datetime.microsecond clock =? 0); [left | right];
    rewrite !chars_app.
  - change (iso_date_time ++ iso_utc_offset)
      with (replicate 4 Digit ++ [Char "-"] ++ replicate 2 Digit ++ [Char "-"] ++
            replicate 2 Digit ++ [Char "T"] ++ replicate 2 Digit ++ [Char ":"] ++
            replicate 2 Digit ++ [Char ":"] ++ replicate 2 Digit ++ [] ++
            iso_utc_offset).
    repeat (apply matches_format_app; [first [apply Hd | reflexivity] |]).
    reflexivity.
  - change (iso_date_time ++ iso_fraction ++ iso_utc_offset)
      with (replicate 4 Digit ++ [Char "-"] ++ replicate 2 Digit ++ [Char "-"] ++
            replicate 2 Digit ++ [Char "T"] ++ replicate 2 Digit ++ [Char ":"] ++
            replicate 2 Digit ++ [Char ":"] ++ replicate 2 Digit ++
            ([Char "."] ++ replicate 6 Digit) ++ iso_utc_offset).
    repeat (apply matches_format_app;
            [first [apply Hd | reflexivity
                   | apply matches_format_app; [reflexivity | apply Hd]] |]).
    reflexivity.
Qed.

End Timestamps.

Section UuidBits.

Lemma uuid4_eq_iff (r1 r2 : N) :
  Uuid.uuid4 r1 = Uuid.uuid4 r2 <->
  N.ldiff r1 Uuid.fixed_bits = N.ldiff r2 Uuid.fixed_bits.
Proof.
  assert (He : forall i, N.testbit (N.shiftl 0x8000 48) i
                         && negb (N.testbit (N.shiftl 0xc000 48) i) = false).
  { intros i. rewrite <- N.ldiff_spec. apply N.bits_0. }
  assert (Hg : forall i, N.testbit (N.shiftl 4 76) i
                         && negb (N.testbit (N.shiftl 0xf000 64) i) = false).
  { intros i. rewrite <- N.ldiff_spec. apply N.bits_0. }
  unfold Uuid.uuid4, Uuid.fixed_bits.
  split; intros H; apply N.bits_inj; intros i;
    apply (f_equal (fun n => N.testbit n i)) in H; revert H;
    rewrite !N.ldiff_spec, !N.lor_spec, !N.ldiff_spec, ?N.lor_spec, ?N.ldiff_spec;
    specialize (He i); specialize (Hg i); revert He Hg;
    generalize (N.testbit (N.shiftl 0x8000 48) i), (N.testbit (N.shiftl 0xc000 48) i),
      (N.testbit (N.shiftl 4 76) i), (N.testbit (N.shiftl 0xf000 64) i),
      (N.testbit r1 i), (N.testbit r2 i);
    intros [] [] [] [] [] []; simpl; congruence.
Qed.

End UuidBits.

Section Responses.

Lemma response_model_dump (id : string) (input : FormSubmissionCreate.t)
    (created_at : string) :
  FormSubmissionResponse.model_dump (record_response id input created_at)
  = record_doc id input created_at.
Proof. destruct input. vm_compute. reflexivity. Qed.

Lemma of_doc_record (id : string) (input : FormSubmissionCreate.t)
    (created_at : string) :
  FormSubmissionResponse.of_doc (record_doc id input created_at)
  = Ok (record_response id input created_at).
Proof. destruct input. vm_compute. reflexivity. Qed.

Lemma created_doc_projected (urandom : N) (clock : Datetime.datetime)
    (object_id : N) (input : FormSubmissionCreate.t) :
  delete "_id" (created_doc urandom clock object_id input)
  = record_doc (Uuid.str (Uuid.uuid4 urandom)) input
      (Datetime.isoformat (Datetime.now (Some Datetime.utc) clock)).
Proof.
  unfold created_doc. generalize (Uuid.str (Uuid.uuid4 urandom)).
  generalize (Datetime.isoformat (Datetime.now (Some Datetime.utc) clock)).
  intros iso id. destruct input. vm_compute. reflexivity.
Qed.

Lemma for_append_Forall2 {A B} (body : A -> outcome B) (P : A -> B -> Prop)
    (l : list A) :
  (forall a, a ∈ l -> exists b, body a = Ok b /\ P a b) ->
  exists bs, for_append body l = Ok bs /\ Forall2 P l bs.
Proof.
  induction l as [|a l IH]; intros H; simpl.
  - exists []. by split.
  - destruct (H a) as (b & -> & Hb); [apply list_elem_of_here |].
    destruct IH as (bs & -> & Hbs).
    { intros a' Ha'. apply H. by apply list_elem_of_further. }
    exists (b :: bs). split; [done |]. by constructor.
Qed.

(** What List answers for a document [Create] stored. *)
Lemma of_doc_created (urandom : N) (clock : Datetime.datetime) (object_id : N)
    (input : FormSubmissionCreate.t) :
  exists resp,
    FormSubmissionResponse.of_doc
      (delete "_id" (created_doc urandom clock object_id input)) = Ok resp
    /\ FormSubmissionResponse.model_dump resp
       = delete "_id" (created_doc urandom clock object_id input).
Proof.
  rewrite created_doc_projected. eexists. rewrite of_doc_record.
  split; [reflexivity |]. apply response_model_dump.
Qed.

End Responses.

Section Acceptance.

Lemma input_field_constraints (name : string) :
  name ∈ input_fields <-> exists f, (name, f) ∈ FormSubmissionCreate.fields.
Proof.
  unfold input_fields. rewrite list_elem_of_fmap. split.
  - intros ([n f] & -> & H). by exists f.
  - intros [f H]. by exists (name, f).
Qed.

(** The validator and the shapes of section 3 accept the same bodies. *)
Lemma validate_accepts_iff (body : dict) :
  (exists input, FormSubmissionCreate.validate body = inr input) <->
  (forall name, name ∈ input_fields -> well_shaped body name).
Proof.
  split.
  - intros [input H] name [f Hf]%input_field_constraints.
    destruct (proj1 (validate_inr body input) H name f Hf) as (s & Hl & Ha & _).
    exists s. split; [done |]. by apply (accepts_shape name f).
  - intros H.
    assert (Hs : forall name f, (name, f) ∈ FormSubmissionCreate.fields ->
                   exists s, body !! name = Some (VStr s) /\ accepts f s).
    { intros name f Hf. destruct (H name) as (s & Hl & Hs).
      - apply input_field_constraints. by exists f.
      - exists s. split; [done |]. by apply (accepts_shape name f). }
    destruct (Hs "mobile_no" (FormSubmissionCreate.digits 10)) as (s1 & ? & ?);
      [unfold FormSubmissionCreate.fields; in_list |].
    destruct (Hs "shop_name" FormSubmissionCreate.text) as (s2 & ? & ?);
      [unfold FormSubmissionCreate.fields; in_list |].
    destruct (Hs "owner_name" FormSubmissionCreate.text) as (s3 & ? & ?);
      [unfold FormSubmissionCreate.fields; in_list |].
    destruct (Hs "ind_name" FormSubmissionCreate.text) as (s4 & ? & ?);
      [unfold FormSubmissionCreate.fields; in_list |].
    destruct (Hs "area_pin_code" (FormSubmissionCreate.digits 6)) as (s5 & ? & ?);
      [unfold FormSubmissionCreate.fields; in_list |].
    destruct (Hs "address" FormSubmissionCreate.text) as (s6 & ? & ?);
      [unfold FormSubmissionCreate.fields; in_list |].
    destruct (Hs "city" FormSubmissionCreate.text) as (s7 & ? & ?);
      [unfold FormSubmissionCreate.fields; in_list |].
    destruct (Hs "dist" FormSubmissionCreate.text) as (s8 & ? & ?);
      [unfold FormSubmissionCreate.fields; in_list |].
    destruct (Hs "state" FormSubmissionCreate.text) as (s9 & ? & ?);
      [unfold FormSubmissionCreate.fields; in_list |].
    destruct (Hs "country" FormSubmissionCreate.text) as (s10 & ? & ?);
      [unfold FormSubmissionCreate.fields; in_list |].
    exists (FormSubmissionCreate.mk s1 s2 s3 s4 s5 s6 s7 s8 s9 s10).
    apply validate_inr. intros name f.
    unfold FormSubmissionCreate.fields. rewrite !elem_of_cons, elem_of_nil.
    intros Hin.
    repeat (destruct Hin as [[= -> ->] | Hin];
            [eexists; split; [eassumption | split; [assumption | reflexivity]] |]).
    done.
Qed.

(** An accepted body and the model made of it agree on the ten fields. *)
Lemma validate_fields (body : dict) (input : FormSubmissionCreate.t) (name : string) :
  FormSubmissionCreate.validate body = inr input ->
  name ∈ input_fields ->
  FormSubmissionCreate.model_dump input !! name = body !! name.
Proof.
  intros H [f Hf]%input_field_constraints.
  destruct (proj1 (validate_inr body input) H name f Hf) as (s & Hl & _ & Hd).
  congruence.
Qed.

Lemma record_doc_field (id created_at : string) (input : FormSubmissionCreate.t)
    (name : string) :
  name ∈ input_fields ->
  record_doc id input created_at !! name = FormSubmissionCreate.model_dump input !! name.
Proof.
  intros H. unfold record_doc.
  rewrite !lookup_insert_ne; [done | |]; intros <-; revert H;
    unfold input_fields; simpl; rewrite !elem_of_cons, elem_of_nil;
    intros H; repeat (destruct H as [[=] | H]); done.
Qed.

(** Validation looks at the ten fields only. *)
Lemma validate_ext (body body' : dict) :
  (forall name, name ∈ input_fields -> body !! name = body' !! name) ->
  FormSubmissionCreate.validate body = FormSubmissionCreate.validate body'.
Proof.
  intros H. unfold FormSubmissionCreate.validate, FormSubmissionCreate.str_field,
    Pydantic.required.
  rewrite !H by (unfold input_fields; simpl; in_list). done.
Qed.

Lemma wf_vap {A B} (f : Pydantic.validated (A -> B)) (x : Pydantic.validated A) :
  coherent f -> coherent x -> coherent (f <*> x).
Proof.
  destruct f as [[|e es] [g|]], x as [[|e' es'] [a|]]; unfold coherent; simpl;
    intros Hf Hx; split; intros H; first [done | exfalso; intuition congruence].
Qed.

Lemma wf_required (name : string) (f : Pydantic.Field) (data : dict) :
  coherent (Pydantic.required name (Pydantic.validate_str f) data).
Proof.
  destruct (required_str_cases name f data) as [(s & _ & _ & ->) | (e & -> & _)];
    unfold coherent; simpl; split; done.
Qed.

Lemma finish_inl_nonempty {A} (v : Pydantic.validated A) (errs : list Pydantic.error_details) :
  coherent v -> Pydantic.finish v = inl errs -> errs = v.1 /\ errs <> [].
Proof.
  destruct v as [[|e es] [a|]]; unfold coherent; simpl; intros Hwf H; simplify_eq;
    try done. tauto.
Qed.



Lemma validate_sample : FormSubmissionCreate.validate sample_body = inr sample_input.
Proof. vm_compute. reflexivity. Qed.

End Acceptance.

(** * Create *)

(** C1. For every valid payload, Create returns a record whose id is a
    non-empty string and whose ten fields equal the fields of the payload;
    the id and created_at come from the server (the UUID drawn and the UTC
    clock), and the record returned is the one persisted. *)
Theorem create_returns_record (urandom : N) (clock : Datetime.datetime)
    (object_id : N) (body : dict) (db : Mongo.collection) :
  (forall name, name ∈ input_fields -> well_shaped body name) ->
  exists resp,
    create_submission urandom clock object_id body db
    = (Ok resp,
       db ++ [<["_id" := VObjectId object_id]> (FormSubmissionResponse.model_dump resp)])
    /\ FormSubmissionResponse.id resp = Uuid.str (Uuid.uuid4 urandom)
    /\ FormSubmissionResponse.id resp <> ""
    /\ FormSubmissionResponse.created_at resp
       = Datetime.isoformat (Datetime.now (Some Datetime.utc) clock)
    /\ forall name, name ∈ input_fields ->
         FormSubmissionResponse.model_dump resp !! name = body !! name.
Proof.
  intros [input Hv]%validate_accepts_iff.
  eexists. rewrite (create_accepted _ _ _ _ _ input Hv).
  rewrite response_model_dump.
  split; [reflexivity |]. split; [reflexivity |].
  split; [apply uuid_str_nonempty |]. split; [reflexivity |].
  intros name Hname.
  rewrite record_doc_field by done. by apply validate_fields.
Qed.

Lemma create_returns_record_witness :
  exists resp,
    create_submission 5 sample_clock 77 sample_body []
    = (Ok resp, [] ++ [<["_id" := VObjectId 77]> (FormSubmissionResponse.model_dump resp)])
    /\ FormSubmissionResponse.id resp = Uuid.str (Uuid.uuid4 5)
    /\ FormSubmissionResponse.id resp <> ""
    /\ FormSubmissionResponse.created_at resp
       = Datetime.isoformat (Datetime.now (Some Datetime.utc) sample_clock)
    /\ forall name, name ∈ input_fields ->
         FormSubmissionResponse.model_dump resp !! name = sample_body !! name.
Proof.
  apply (create_returns_record 5 sample_clock 77 sample_body []).
  apply validate_accepts_iff. eexists. vm_compute. reflexivity.
Defined.

(** * Validation *)



(** * List *)

(** C4. List returns all stored records, as the store holds them (without
    the store's own key), in the store's order, at most 1000 of them; on an
    empty store it returns the empty sequence. *)
Theorem list_returns_stored_records (rs : list request) :
  (exists records,
     get_submissions (run rs) = (Ok records, run rs)
     /\ FormSubmissionResponse.model_dump <$> records
        = take 1000 (delete "_id" <$> run rs)
     /\ length records = Nat.min 1000 (length (run rs)))
  /\ get_submissions [] = (Ok [], []).
Proof.
  split; [| reflexivity].
  unfold get_submissions.
  destruct (for_append_Forall2 FormSubmissionResponse.of_doc
              (fun d resp => FormSubmissionResponse.model_dump resp = d)
              (Mongo.find_to_list "_id" 1000 (run rs)))
    as (records & -> & Hrecords).
  { intros d Hd. unfold Mongo.find_to_list in Hd.
    apply elem_of_take in Hd as (i & Hd & _).
    apply list_lookup_fmap_Some in Hd as (d0 & -> & Hd0).
    apply list_elem_of_lookup_2 in Hd0.
    apply run_documents in Hd0 as (u & c & o & b & input & _ & _ & ->).
    apply of_doc_created. }
  exists records. split; [done |].
  assert (FormSubmissionResponse.model_dump <$> records
          = Mongo.find_to_list "_id" 1000 (run rs)) as Heq.
  { clear -Hrecords. induction Hrecords as [|d r ds rs' Hr _ IH]; [done |].
    by rewrite fmap_cons, Hr, IH. }
  split; [exact Heq |].
  rewrite <- (length_fmap FormSubmissionResponse.model_dump), Heq.
  unfold Mongo.find_to_list. by rewrite length_take, length_fmap.
Qed.

(** * Delete *)



(** * Export *)

Lemma export_values (clock : Datetime.datetime) (db : Mongo.collection) :
  Forall storable (Mongo.find_to_list "_id" 1000 db) ->
  exists resp,
    export_submissions_excel clock db = (Ok resp, db) /\
    holds (sheet resp) (header_row :: imap data_row (Mongo.find_to_list "_id" 1000 db)) /\
    Openpyxl.values (sheet resp)
    = header_row :: imap data_row (Mongo.find_to_list "_id" 1000 db).
Proof.
  intros Hs. destruct (export_holds clock db Hs) as (resp & Hresp & Hholds).
  exists resp. split; [done |]. split; [done |].
  apply (values_holds _ _ 12); [done | lia | | done].
  constructor; [done |]. apply Forall_forall. intros row Hrow.
  apply list_elem_of_lookup in Hrow as [i Hi].
  rewrite list_lookup_imap in Hi.
  destruct (Mongo.find_to_list "_id" 1000 db !! i) as [d|]; [| done].
  by injection Hi as <-.
Qed.

(** C3 (as amended).  For every stored record set whose first 1000
    records, as List returns them, hold values a worksheet cell accepts,
    Export produces a sheet whose first row is the fixed header, followed
    by exactly one data row per such record, in list order, numbered 1..N
    by position; with no records the sheet is the header row alone. *)
Theorem export_writes_header_and_rows (clock : Datetime.datetime)
    (db : Mongo.collection) :
  Forall storable (Mongo.find_to_list "_id" 1000 db) ->
  exists resp,
    export_submissions_excel clock db = (Ok resp, db)
    /\ Openpyxl.values (sheet resp)
       = (Openpyxl.Text <$> headers)
         :: imap data_row (Mongo.find_to_list "_id" 1000 db)
    /\ length (Openpyxl.values (sheet resp)) = S (Nat.min 1000 (length db))
    /\ (forall i row, Openpyxl.values (sheet resp) !! S i = Some row ->
          row !! O = Some (Openpyxl.Number (Z.of_nat i + 1)))
    /\ (db = [] -> Openpyxl.values (sheet resp) = [Openpyxl.Text <$> headers]).
Proof.
  intros Hs. destruct (export_values clock db Hs) as (resp & Hresp & _ & Hvalues).
  exists resp. split; [done |]. split; [done |]. rewrite Hvalues.
  split; [| split].
  - simpl. rewrite length_imap. unfold Mongo.find_to_list.
    by rewrite length_take, length_fmap.
  - intros i row. simpl. rewrite list_lookup_imap.
    destruct (Mongo.find_to_list "_id" 1000 db !! i) as [d|]; [| done].
    by intros [= <-].
  - by intros ->.
Qed.

Lemma export_writes_header_and_rows_witness :
  exists resp,
    export_submissions_excel sample_clock (run (sample_requests 2))
    = (Ok resp, run (sample_requests 2))
    /\ Openpyxl.values (sheet resp)
       = (Openpyxl.Text <$> headers)
         :: imap data_row (Mongo.find_to_list "_id" 1000 (run (sample_requests 2)))
    /\ length (Openpyxl.values (sheet resp))
       = S (Nat.min 1000 (length (run (sample_requests 2))))
    /\ (forall i row, Openpyxl.values (sheet resp) !! S i = Some row ->
          row !! O = Some (Openpyxl.Number (Z.of_nat i + 1)))
    /\ (run (sample_requests 2) = [] ->
        Openpyxl.values (sheet resp) = [Openpyxl.Text <$> headers]).
Proof.
  apply (export_writes_header_and_rows sample_clock (run (sample_requests 2))).
  apply storableb_Forall. vm_compute. reflexivity.
Defined.

(** C3, as stated, fails: a store of 1001 records is exported with 1000
    data rows, and a store with a record whose text holds a control
    character is not exported at all. *)
Lemma export_one_row_per_record_counterexample :
  (length (run (sample_requests 1001)) = 1001%nat
   /\ match (export_submissions_excel sample_clock (run (sample_requests 1001))).1 with
      | Ok resp => length (Openpyxl.values (sheet resp))
      | Raise _ => O
      end = 1001%nat)
  /\ (length (run [Create 5 sample_clock 77
                     (<["city" := VStr (String "011" "")]> sample_body)]) = 1%nat
      /\ (export_submissions_excel sample_clock
            (run [Create 5 sample_clock 77
                    (<["city" := VStr (String "011" "")]> sample_body)])).1
         = Raise IllegalCharacterError).
Proof.
  split; split; vm_compute; reflexivity.
Qed.

(** C10 (as amended).  A missing field never makes Export fail: for every
    stored record set whose first 1000 records hold, in the fields that are
    present, values a worksheet cell accepts, each exported cell takes the
    cell of the record's field value when the field is present and the
    empty string when it is absent; text without control characters and of
    at most 32767 characters is taken as it is. *)
Theorem export_missing_fields_read_empty (clock : Datetime.datetime)
    (db : Mongo.collection) :
  Forall storable (Mongo.find_to_list "_id" 1000 db) ->
  (exists resp,
     export_submissions_excel clock db = (Ok resp, db)
     /\ forall i d j k,
          Mongo.find_to_list "_id" 1000 db !! i = Some d ->
          exported_fields !! j = Some k ->
          sheet resp !! (i + 2, j + 2)%nat
          = Some (match d !! k with
                  | Some v => cell_of v
                  | None => Openpyxl.Text ""
                  end))
  /\ (forall s, cell_text s -> cell_of (VStr s) = Openpyxl.Text s)
  /\ (forall s, storable_value (VStr s) ->
        cell_of (VStr s) = Openpyxl.Text (Py.prefix 32767 s))
  /\ (forall d : dict, (forall k, k ∈ exported_fields -> d !! k = None) -> storable d).
Proof.
  intros Hs. split; [| split; [| split]].
  - destruct (export_values clock db Hs) as (resp & Hresp & Hholds & _).
    exists resp. split; [done |]. intros i d j k Hd Hk.
    rewrite Hholds. replace (i + 2)%nat with (S (S i)) by lia.
    replace (j + 2)%nat with (S (S j)) by lia.
    cbn [grid_at]. rewrite lookup_cons, list_lookup_imap, Hd.
    cbn [fmap option_fmap option_map mbind option_bind]. unfold data_row.
    by rewrite lookup_cons, list_lookup_fmap, Hk.
  - intros s Hs'. unfold cell_of. by rewrite bind_value_text.
  - intros s [c Hc]. unfold cell_of. rewrite Hc. simpl in Hc.
    unfold Openpyxl.check_string in Hc.
    destruct (existsb Openpyxl.illegal _); [done |]. by injection Hc as <-.
  - intros d Hd k v Hk Hv. rewrite (Hd k Hk) in Hv. done.
Qed.

Lemma export_missing_fields_read_empty_witness :
  (exists resp,
     export_submissions_excel sample_clock [∅; {["city" := VNone]}]
     = (Ok resp, [∅; {["city" := VNone]}])
     /\ forall i d j k,
          Mongo.find_to_list "_id" 1000 [∅; {["city" := VNone]}] !! i = Some d ->
          exported_fields !! j = Some k ->
          sheet resp !! (i + 2, j + 2)%nat
          = Some (match d !! k with
                  | Some v => cell_of v
                  | None => Openpyxl.Text ""
                  end))
  /\ (forall s, cell_text s -> cell_of (VStr s) = Openpyxl.Text s)
  /\ (forall s, storable_value (VStr s) ->
        cell_of (VStr s) = Openpyxl.Text (Py.prefix 32767 s))
  /\ (forall d : dict, (forall k, k ∈ exported_fields -> d !! k = None) -> storable d).
Proof.
  apply (export_missing_fields_read_empty sample_clock [∅; {["city" := VNone]}]).
  apply storableb_Forall. vm_compute. reflexivity.
Defined.

(** C10, as stated, fails: Export is not total over stored documents.  A
    record made by Create from a body whose shop name holds a control
    character, and a document with an array in a field, both make it
    raise. *)
Lemma export_total_counterexample :
  (export_submissions_excel sample_clock
     (run [Create 5 sample_clock 77
             (<["shop_name" := VStr (String "001" "")]> sample_body)])).1
  = Raise IllegalCharacterError
  /\ (export_submissions_excel sample_clock
        [ {["id" := VStr "x"; "city" := VList [VStr "a"; VStr "b"]]} ]).1
     = Raise ValueError.
Proof.
  split; vm_compute; reflexivity.
Qed.

(** C8. Export never changes the store: the collection after an Export is
    the collection before it, and a List right after returns what a List
    right before would have returned. *)
Theorem export_leaves_store_unchanged (clock : Datetime.datetime)
    (db : Mongo.collection) :
  (export_submissions_excel clock db).2 = db
  /\ handle db (Export clock) = db
  /\ get_submissions (export_submissions_excel clock db).2 = get_submissions db
  /\ length (Mongo.find_to_list "_id" 1000 (handle db (Export clock)))
     = length (Mongo.find_to_list "_id" 1000 db).
Proof. done. Qed.

(** * Identifiers and timestamps of stored records *)

Section StoredIds.

Lemma stored_ids_app (db1 db2 : Mongo.collection) :
  stored_ids (db1 ++ db2) = stored_ids db1 ++ stored_ids db2.
Proof. unfold stored_ids. apply fmap_app. Qed.

Lemma created_ids_snoc (rs : list request) (r : request) :
  created_ids (rs ++ [r]) =
  created_ids rs ++
  match r with
  | Create urandom _ _ _ => [Uuid.str (Uuid.uuid4 urandom)]
  | _ => []
  end.
Proof. unfold created_ids. rewrite omap_app. by destruct r. Qed.

(** The stored ids are, in order, among the ids created. *)
Lemma stored_ids_created (rs : list request) :
  stored_ids (run rs) `sublist_of` (Some ∘ VStr <$> created_ids rs).
Proof.
  induction rs as [|r rs IH] using rev_ind; [constructor |].
  rewrite run_snoc, created_ids_snoc, fmap_app.
  destruct (handle_cases (run rs) r)
    as [-> | [(u & c & o & b & i & -> & Hv & ->)
             | (x & c1 & d & c2 & -> & Hdb & _ & _ & ->)]].
  - by apply sublist_inserts_r.
  - rewrite stored_ids_app. by apply sublist_app.
  - simpl. rewrite app_nil_r. etrans; [| exact IH].
    rewrite Hdb, !stored_ids_app. apply sublist_app; [done |].
    simpl. by apply sublist_cons.
Qed.

End StoredIds.

(** C6 (as amended).  The ids of the stored submissions are pairwise
    distinct as long as the UUIDs drawn by the Create calls are: every
    operation keeps the stored ids distinct, Create provided the id it
    draws is not stored yet; and two Create calls give the same id exactly
    when their random draws agree on all but the six bits that uuid4
    overwrites. *)
Theorem ids_unique_while_draws_differ :
  (forall rs, NoDup (created_ids rs) -> unique_ids (run rs))
  /\ (forall db r,
        unique_ids db ->
        (forall urandom clock object_id body,
           r = Create urandom clock object_id body ->
           Some (VStr (Uuid.str (Uuid.uuid4 urandom))) ∉ stored_ids db) ->
        unique_ids (handle db r))
  /\ (forall u1 u2 clock1 clock2 o1 o2 body1 body2 db1 db2 resp1 resp2,
        u1 < 2 ^ 128 -> u2 < 2 ^ 128 ->
        (create_submission u1 clock1 o1 body1 db1).1 = Ok resp1 ->
        (create_submission u2 clock2 o2 body2 db2).1 = Ok resp2 ->
        FormSubmissionResponse.id resp1 = FormSubmissionResponse.id resp2 <->
        N.ldiff u1 Uuid.fixed_bits = N.ldiff u2 Uuid.fixed_bits).
Proof.
  split; [| split].
  - intros rs Hnd. unfold unique_ids.
    eapply sublist_NoDup; [| apply stored_ids_created].
    apply NoDup_fmap_2; [| done]. by intros ?? [= ->].
  - intros db r Hnd Hfresh. unfold unique_ids in *.
    destruct (handle_cases db r)
      as [-> | [(u & c & o & b & i & -> & Hv & ->)
               | (x & c1 & d & c2 & -> & -> & _ & _ & ->)]].
    + done.
    + rewrite stored_ids_app. apply NoDup_app. split; [done |].
      split; [| apply NoDup_singleton].
      intros v Hv' Hin. simpl in Hin. apply list_elem_of_singleton in Hin as ->.
      rewrite created_doc_id in Hv'. by eapply Hfresh.
    + eapply sublist_NoDup; [exact Hnd |].
      rewrite !stored_ids_app. apply sublist_app; [done |]. by apply sublist_cons.
  - intros u1 u2 clock1 clock2 o1 o2 body1 body2 db1 db2 resp1 resp2 H1 H2 Hc1 Hc2.
    assert (Hid : forall u c o b db resp,
              (create_submission u c o b db).1 = Ok resp ->
              FormSubmissionResponse.id resp = Uuid.str (Uuid.uuid4 u)).
    { intros u c o b db resp Hc.
      destruct (FormSubmissionCreate.validate b) as [errs|input] eqn:Hv.
      - by rewrite (create_rejected _ _ _ _ _ errs) in Hc.
      - rewrite (create_accepted _ _ _ _ _ input) in Hc by done.
        by injection Hc as <-. }
    rewrite (Hid _ _ _ _ _ _ Hc1), (Hid _ _ _ _ _ _ Hc2).
    rewrite uuid4_str_eq_iff by done. apply uuid4_eq_iff.
Qed.

Lemma ids_unique_while_draws_differ_witness :
  unique_ids (run (sample_requests 3))
  /\ unique_ids (handle (run (sample_requests 3)) (Delete (Uuid.str (Uuid.uuid4 1))))
  /\ forall resp1 resp2,
       (create_submission 5 sample_clock 77 sample_body []).1 = Ok resp1 ->
       (create_submission (5 + 2 ^ 62) sample_clock 78 sample_body []).1 = Ok resp2 ->
       FormSubmissionResponse.id resp1 = FormSubmissionResponse.id resp2.
Proof.
  destruct ids_unique_while_draws_differ as (Hrun & Hstep & Hdraw).
  assert (Hu : unique_ids (run (sample_requests 3))).
  { apply Hrun. apply (bool_decide_unpack _). vm_compute. reflexivity. }
  split; [exact Hu |]. split.
  - apply Hstep; [exact Hu | discriminate].
  - intros resp1 resp2 H1 H2.
    apply (Hdraw 5 (5 + 2 ^ 62) sample_clock sample_clock 77 78
             sample_body sample_body [] [] resp1 resp2);
      [reflexivity | reflexivity | exact H1 | exact H2 | vm_compute; reflexivity].
Defined.

(** C6, as stated, fails: two successive Create calls whose random draws
    coincide produce the same id, and both records are stored. *)
Lemma same_draw_same_id_counterexample :
  let id := Uuid.str (Uuid.uuid4 5) in
  let created_at := Datetime.isoformat (Datetime.now (Some Datetime.utc) sample_clock) in
  let doc1 := created_doc 5 sample_clock 77 sample_input in
  let doc2 := created_doc 5 sample_clock 78 sample_input in
  create_submission 5 sample_clock 77 sample_body []
  = (Ok (record_response id sample_input created_at), [doc1])
  /\ create_submission 5 sample_clock 78 sample_body [doc1]
     = (Ok (record_response id sample_input created_at), [doc1; doc2])
  /\ doc1 <> doc2
  /\ ~ unique_ids [doc1; doc2].
Proof.
  cbv zeta. rewrite !(create_accepted _ _ _ _ _ sample_input validate_sample).
  split; [done |]. split; [done |]. split.
  - intros H. apply (f_equal (fun d : dict => d !! "_id")) in H.
    unfold created_doc in H. rewrite !lookup_insert_eq in H. discriminate.
  - unfold unique_ids, stored_ids. cbn [fmap list_fmap].
    rewrite !created_doc_id. intros H. apply NoDup_cons in H as [H _].
    apply H. apply list_elem_of_here.
Qed.



(** C9 (as amended).  Create keeps the recognised fields only: bodies that
    agree on the ten input fields are treated alike, whatever else they
    hold; the response holds exactly the twelve fields of section 3, and
    the stored document holds exactly these twelve and the ["_id"] the
    store assigns, with the ten input fields as the body gave them. *)
Theorem unknown_fields_are_dropped (urandom : N) (clock : Datetime.datetime)
    (object_id : N) (body body' : dict) (db : Mongo.collection) :
  (forall name, name ∈ input_fields -> body !! name = body' !! name) ->
  create_submission urandom clock object_id body db
  = create_submission urandom clock object_id body' db
  /\ (forall resp db',
        create_submission urandom clock object_id body db = (Ok resp, db') ->
        exists doc,
          db' = db ++ [doc]
          /\ dom (FormSubmissionResponse.model_dump resp)
             = list_to_set FormSubmissionResponse.field_names
          /\ dom doc = list_to_set ("_id" :: FormSubmissionResponse.field_names)
          /\ doc !! "_id" = Some (VObjectId object_id)
          /\ delete "_id" doc = FormSubmissionResponse.model_dump resp
          /\ forall name, name ∈ input_fields -> doc !! name = body !! name).
Proof.
  intros Hagree. split.
  - unfold create_submission. by rewrite (validate_ext body body').
  - intros resp db' Hc.
    destruct (FormSubmissionCreate.validate body) as [errs|input] eqn:Hv.
    { by rewrite (create_rejected _ _ _ _ _ errs) in Hc. }
    rewrite (create_accepted _ _ _ _ _ input Hv) in Hc.
    injection Hc as <- <-. eexists. split; [reflexivity |].
    rewrite response_model_dump.
    assert (Hdom : forall id iso,
              dom (record_doc id input iso)
              = list_to_set FormSubmissionResponse.field_names
              /\ record_doc id input iso !! "_id" = None).
    { intros id iso. destruct input. split; vm_compute; reflexivity. }
    destruct (Hdom (Uuid.str (Uuid.uuid4 urandom))
                (Datetime.isoformat (Datetime.now (Some Datetime.utc) clock)))
      as [Hd Hn].
    split; [done |]. split.
    { rewrite dom_insert_L, Hd. done. }
    split; [apply lookup_insert_eq |]. split.
    { rewrite delete_insert_eq. by apply delete_id. }
    intros name Hname. rewrite lookup_insert_ne.
    + rewrite record_doc_field by done. by apply validate_fields.
    + intros <-. revert Hname. unfold input_fields. simpl.
      rewrite !elem_of_cons, elem_of_nil. intros H.
      repeat (destruct H as [[=] | H]). done.
Qed.

Lemma unknown_fields_are_dropped_witness :
  create_submission 5 sample_clock 77 sample_body []
  = create_submission 5 sample_clock 77 (delete "is_admin" sample_body) [].
Proof.
  apply (unknown_fields_are_dropped 5 sample_clock 77
           sample_body (delete "is_admin" sample_body) []).
  intros name Hname. rewrite lookup_delete_ne; [done |].
  intros <-. revert Hname. vm_compute. intros H.
  repeat (apply elem_of_cons in H as [[=] | H]). by apply elem_of_nil in H.
Defined.

(** C9, as stated, fails: the document Create stores holds a thirteenth
    key, ["_id"], which is not a field of section 3. *)
Lemma stored_document_has_object_id_counterexample :
  let doc := created_doc 5 sample_clock 77 sample_input in
  (create_submission 5 sample_clock 77 sample_body []).2 = [doc]
  /\ doc !! "_id" = Some (VObjectId 77)
  /\ ("_id" ∉ FormSubmissionResponse.field_names)
  /\ (dom doc <> list_to_set FormSubmissionResponse.field_names).
Proof.
  cbv zeta. rewrite (create_accepted _ _ _ _ _ sample_input validate_sample).
  split; [done |]. split; [done |]. split.
  - apply (bool_decide_unpack _). vm_compute. reflexivity.
  - apply (bool_decide_unpack _). vm_compute. reflexivity.
Qed.

(** * More on validation *)

Section ValidationErrors.

Lemma field_error_locs (n : string) (f : Pydantic.Field) (body : dict) :
  Pydantic.loc <$> (FormSubmissionCreate.str_field n f body).1 `sublist_of` [n].
Proof.
  unfold FormSubmissionCreate.str_field.
  destruct (required_str_cases n f body) as [(s & _ & _ & ->) | (e & -> & _)]; simpl.
  - apply sublist_nil_l.
  - done.
Qed.


(** The errors of a rejected body are the errors of its fields, field by
    field. *)
Lemma validate_error_list (body : dict) (errs : list Pydantic.error_details) :
  FormSubmissionCreate.validate body = inl errs ->
  errs = mjoin ((fun nf => (FormSubmissionCreate.str_field nf.1 nf.2 body).1)
                   <$> FormSubmissionCreate.fields).
Proof.
  unfold FormSubmissionCreate.validate. intros H.
  apply finish_inl_nonempty in H as [-> _].
  2: { repeat (apply wf_vap; [| apply wf_required]).
       unfold coherent. simpl. split; [done | by intros []]. }
  cbn [Pydantic.vap Pydantic.vpure fst FormSubmissionCreate.fields
       fmap list_fmap mjoin list_join snd].
  rewrite app_nil_r, <- !app_assoc. reflexivity.
Qed.


End ValidationErrors.

(** X1. A rejected body is answered with at most one error per field, and
    the errors come in the order in which the model declares its fields. *)
Theorem validation_errors_in_field_order (body : dict)
    (errs : list Pydantic.error_details) :
  FormSubmissionCreate.validate body = inl errs ->
  Pydantic.loc <$> errs `sublist_of` input_fields
  /\ NoDup (Pydantic.loc <$> errs)
  /\ (length errs <= 10)%nat.
Proof.
  intros H.
  assert (Hsub : Pydantic.loc <$> errs `sublist_of` input_fields).
  { rewrite (validate_error_list body errs H).
    unfold input_fields.
    generalize FormSubmissionCreate.fields. intros l.
    induction l as [|[n f] l IH]; simpl; [constructor |].
    rewrite fmap_app. apply (sublist_app _ [n]); [apply field_error_locs | done]. }
  split; [done |]. split.
  - eapply sublist_NoDup; [| exact Hsub].
    apply (bool_decide_unpack _). vm_compute. reflexivity.
  - apply sublist_length in Hsub. by rewrite length_fmap in Hsub.
Qed.

Lemma validation_errors_in_field_order_witness :
  Pydantic.loc <$> [Pydantic.mk_error "shop_name" Pydantic.string_too_short;
                    Pydantic.mk_error "country" Pydantic.missing]
    `sublist_of` input_fields
  /\ NoDup (Pydantic.loc <$> [Pydantic.mk_error "shop_name" Pydantic.string_too_short;
                              Pydantic.mk_error "country" Pydantic.missing])
  /\ (length [Pydantic.mk_error "shop_name" Pydantic.string_too_short;
              Pydantic.mk_error "country" Pydantic.missing] <= 10)%nat.
Proof.
  apply (validation_errors_in_field_order
           (<["shop_name" := VStr ""]> (delete "country" sample_body))).
  vm_compute. reflexivity.
Defined.



(** * More on the stored documents *)

Section StoredDocuments.

Implicit Types (db c : Mongo.collection) (d : dict).




Lemma delete_one_last (key x : string) c d :
  Forall (fun d => Mongo.matches key x d = false) c ->
  Mongo.matches key x d = true ->
  Mongo.delete_one key x (c ++ [d]) = (1%nat, c).
Proof.
  intros H Hd. induction H as [|d' c Hd' _ IH]; simpl.
  - by rewrite Hd.
  - by rewrite Hd', IH.
Qed.

Lemma for_append_app {A B} (body : A -> outcome B) (l1 l2 : list A)
    (bs1 bs2 : list B) :
  for_append body l1 = Ok bs1 -> for_append body l2 = Ok bs2 ->
  for_append body (l1 ++ l2) = Ok (bs1 ++ bs2).
Proof.
  revert bs1. induction l1 as [|a l1 IH]; intros bs1; simpl.
  - by intros [= <-].
  - destruct (body a) as [b|]; [| done]. simpl.
    destruct (for_append body l1) as [bs|]; [| done]. simpl.
    intros [= <-] H2. by rewrite (IH bs eq_refl H2).
Qed.

Lemma find_to_list_snoc_lt db d :
  (length db < 1000)%nat ->
  Mongo.find_to_list "_id" 1000 (db ++ [d])
  = Mongo.find_to_list "_id" 1000 db ++ [delete "_id" d].
Proof.
  intros H. unfold Mongo.find_to_list. rewrite fmap_app.
  rewrite take_app_ge by (rewrite length_fmap; lia).
  rewrite (take_ge (delete "_id" <$> db)) by (rewrite length_fmap; lia).
  f_equal. rewrite length_fmap. apply take_ge. simpl. lia.
Qed.


Lemma run_unique_ids (rs : list request) :
  NoDup (created_ids rs) -> unique_ids (run rs).
Proof.
  intros Hnd. unfold unique_ids.
  eapply sublist_NoDup; [| apply stored_ids_created].
  apply NoDup_fmap_2; [| done]. by intros ?? [= ->].
Qed.

End StoredDocuments.



(** X4. Create followed by List: on a collection of fewer than 1000
    documents that List can read, a Create with a valid body adds exactly
    the returned record at the end of what List returns. *)
Theorem created_record_is_listed (urandom : N) (clock : Datetime.datetime)
    (object_id : N) (body : dict) (db : Mongo.collection)
    (records : list FormSubmissionResponse.t) :
  (forall name, name ∈ input_fields -> well_shaped body name) ->
  (length db < 1000)%nat ->
  (get_submissions db).1 = Ok records ->
  exists resp,
    (create_submission urandom clock object_id body db).1 = Ok resp
    /\ (get_submissions (handle db (Create urandom clock object_id body))).1
       = Ok (records ++ [resp]).
Proof.
  intros [input Hv]%validate_accepts_iff Hlen Hlist.
  cbn [handle]. rewrite (create_accepted _ _ _ _ _ input Hv). cbn [fst snd].
  eexists. split; [reflexivity |].
  unfold get_submissions in *. cbn [fst] in *.
  rewrite find_to_list_snoc_lt by done.
  apply for_append_app; [done |].
  fold (created_doc urandom clock object_id input).
  rewrite created_doc_projected. simpl. by rewrite of_doc_record.
Qed.

Lemma created_record_is_listed_witness :
  exists resp,
    (create_submission 5 sample_clock 77 sample_body []).1 = Ok resp
    /\ (get_submissions (handle [] (Create 5 sample_clock 77 sample_body))).1
       = Ok ([] ++ [resp]).
Proof.
  apply (created_record_is_listed 5 sample_clock 77 sample_body [] []).
  - apply validate_accepts_iff. eexists. apply validate_sample.
  - simpl. lia.
  - reflexivity.
Defined.



(** X6. Create followed by Delete: deleting the id a Create returned
    always reports success and brings the collection back to its size
    before the Create; when no stored document had that id, it brings back
    the collection itself. *)
Theorem delete_undoes_create (urandom : N) (clock : Datetime.datetime)
    (object_id : N) (body : dict) (db db' : Mongo.collection)
    (resp : FormSubmissionResponse.t) :
  create_submission urandom clock object_id body db = (Ok resp, db') ->
  (exists db'',
     delete_submission (FormSubmissionResponse.id resp) db'
     = (Ok (mk_delete true "Submission deleted"), db'')
     /\ length db'' = length db)
  /\ (Forall (fun d => Mongo.matches "id" (FormSubmissionResponse.id resp) d = false) db ->
      delete_submission (FormSubmissionResponse.id resp) db'
      = (Ok (mk_delete true "Submission deleted"), db)).
Proof.
  intros Hc.
  destruct (FormSubmissionCreate.validate body) as [errs|input] eqn:Hv.
  { by rewrite (create_rejected _ _ _ _ _ errs) in Hc. }
  rewrite (create_accepted _ _ _ _ _ input Hv) in Hc. injection Hc as <- <-.
  cbn [record_response FormSubmissionResponse.id].
  fold (created_doc urandom clock object_id input).
  set (x := Uuid.str (Uuid.uuid4 urandom)).
  assert (Hnew : Mongo.matches "id" x (created_doc urandom clock object_id input) = true).
  { rewrite (matches_id x _ _ (created_doc_id _ _ _ _)). apply String.eqb_refl. }
  split.
  - rewrite delete_submission_eq.
    destruct (delete_one_cases "id" x (db ++ [created_doc urandom clock object_id input]))
      as [[Hall _] | (c1 & d & c2 & Heq & _ & _ & ->)].
    + apply Forall_app in Hall as [_ Hall]. apply Forall_cons in Hall as [Hall _].
      cbv beta in Hall. congruence.
    + simpl. eexists. split; [reflexivity |].
      apply (f_equal length) in Heq. rewrite !length_app in Heq. simpl in Heq.
      rewrite length_app. lia.
  - intros Hfresh. rewrite delete_submission_eq.
    by rewrite (delete_one_last "id" x db _ Hfresh Hnew).
Qed.

Lemma delete_undoes_create_witness :
  delete_submission "00000000-0000-4000-8000-000000000005"
    [created_doc 5 sample_clock 77 sample_input]
  = (Ok (mk_delete true "Submission deleted"), []).
Proof.
  apply (proj2 (delete_undoes_create 5 sample_clock 77 sample_body []
                  [created_doc 5 sample_clock 77 sample_input]
                  (record_response (Uuid.str (Uuid.uuid4 5)) sample_input
                     (Datetime.isoformat (Datetime.now (Some Datetime.utc) sample_clock)))
                  (create_accepted _ _ _ _ _ sample_input validate_sample))).
  constructor.
Defined.

(** X7. What Delete touches: the documents the filter on the id does not
    select are all kept, in their order; of the selected ones the first is
    removed and the others are kept; and the outcome is success exactly
    when there was one to remove. *)
Theorem delete_removes_first_match_only (x : string) (db : Mongo.collection) :
  exists resp db',
    delete_submission x db = (Ok resp, db')
    /\ unselected x db' = unselected x db
    /\ selected x db' = drop 1 (selected x db)
    /\ (success resp = true <-> selected x db <> [])
    /\ length db' = (length db - (if success resp then 1 else 0))%nat.
Proof.
  rewrite delete_submission_eq.
  assert (Hsel : forall c, Forall (fun d => Mongo.matches "id" x d = false) c ->
            selected x c = [] /\ unselected x c = c).
  { intros c Hc. unfold selected, unselected.
    induction Hc as [|d c Hd _ [IH1 IH2]]; [done |].
    rewrite filter_cons_False by congruence.
    rewrite filter_cons_True by congruence. by rewrite IH1, IH2. }
  destruct (delete_one_cases "id" x db)
    as [[Hall ->] | (c1 & d & c2 & -> & Hall & Hd & ->)]; simpl.
  - destruct (Hsel db Hall) as [Hs _].
    eexists _, _. split; [reflexivity |]. simpl. rewrite !Hs. simpl.
    split; [done |]. split; [done |]. split; [| lia].
    split; [done | by intros []].
  - destruct (Hsel c1 Hall) as [Hs Hu].
    eexists _, _. split; [reflexivity |]. simpl.
    unfold selected, unselected in *. rewrite !filter_app, Hs, Hu.
    rewrite (filter_cons_True (fun d => Mongo.matches "id" x d = true)) by done.
    rewrite (filter_cons_False (fun d => Mongo.matches "id" x d <> true))
      by (intros H; by apply H).
    split; [done |]. split; [done |]. split; [done |].
    rewrite !length_app. simpl. lia.
Qed.

(** X8. Delete is idempotent on a collection with distinct ids: after a
    Delete of an id, a second Delete of the same id reports not-found and
    changes nothing. *)
Theorem second_delete_finds_nothing (rs : list request) (x : string) :
  unique_ids (run rs) ->
  delete_submission x (handle (run rs) (Delete x))
  = (Ok (mk_delete false "Submission not found"), handle (run rs) (Delete x)).
Proof.
  intros Hnd. cbn [handle].
  assert (Hstr : forall d, d ∈ run rs -> exists s, d !! "id" = Some (VStr s)).
  { intros d (u & c & o & b & i & _ & _ & ->)%run_documents.
    eexists. apply created_doc_id. }
  rewrite !delete_submission_eq. cbn [snd].
  destruct (delete_one_cases "id" x (run rs))
    as [[Hall ->] | (c1 & d & c2 & Heq & Hall & Hd & ->)]; cbn [snd].
  - by rewrite delete_one_none.
  - rewrite delete_one_none; [done |].
    apply Forall_app. split; [done |].
    apply Forall_forall. intros d2 Hd2.
    destruct (Mongo.matches "id" x d2) eqn:Hm; [| done]. exfalso.
    unfold unique_ids, stored_ids in Hnd. rewrite Heq in Hnd, Hstr.
    rewrite fmap_app, fmap_cons in Hnd.
    apply NoDup_app in Hnd as (_ & _ & Hnd). apply NoDup_cons in Hnd as [Hnin _].
    apply Hnin. apply list_elem_of_fmap. exists d2. split; [| done].
    destruct (Hstr d) as [s Hs]; [apply elem_of_app; right; apply list_elem_of_here |].
    destruct (Hstr d2) as [s2 Hs2];
      [apply elem_of_app; right; by apply list_elem_of_further |].
    rewrite (matches_id x d s Hs) in Hd. rewrite (matches_id x d2 s2 Hs2) in Hm.
    apply String.eqb_eq in Hd, Hm. congruence.
Qed.

Lemma second_delete_finds_nothing_witness :
  delete_submission (Uuid.str (Uuid.uuid4 1))
    (handle (run (sample_requests 3)) (Delete (Uuid.str (Uuid.uuid4 1))))
  = (Ok (mk_delete false "Submission not found"),
     handle (run (sample_requests 3)) (Delete (Uuid.str (Uuid.uuid4 1)))).
Proof.
  apply (second_delete_finds_nothing (sample_requests 3) (Uuid.str (Uuid.uuid4 1))).
  apply run_unique_ids. apply (bool_decide_unpack _). vm_compute. reflexivity.
Defined.

(** * More on List *)

Section Loops.



Lemma for_fold_ok_inv {A S} (body : S -> A -> outcome S) (l : list A) (s s' : S) :
  for_fold body s l = Ok s' ->
  Forall (fun a => exists s0 s1, body s0 a = Ok s1) l.
Proof.
  revert s. induction l as [|a l IH]; intros s; simpl; [constructor |].
  destruct (body s a) as [s1|] eqn:Hb; [| done]. simpl.
  intros H. constructor; [by exists s, s1 | by eapply IH].
Qed.

Lemma for_fold_raise_inv {A S} (body : S -> A -> outcome S) (l : list A) (s : S)
    (e : exn) :
  for_fold body s l = Raise e -> exists s0 a, a ∈ l /\ body s0 a = Raise e.
Proof.
  revert s. induction l as [|a l IH]; intros s; simpl; [done |].
  destruct (body s a) as [s1|e'] eqn:Hb; simpl.
  - intros (s0 & a' & Ha' & He)%IH. exists s0, a'.
    split; [by apply list_elem_of_further | done].
  - intros [= <-]. exists s, a. split; [apply list_elem_of_here | done].
Qed.

End Loops.

Section ResponseModel.









End ResponseModel.



(** * More on Export *)

Section ExportFailure.

Lemma bind_value_raise (v : pyval) (e : exn) :
  Openpyxl.bind_value v = Raise e -> e = IllegalCharacterError \/ e = ValueError.
Proof.
  destruct v; simpl; try done; try (intros [= <-]; by right).
  unfold Openpyxl.check_string.
  destruct (existsb Openpyxl.illegal _); simpl; [| done]. intros [= <-]. by left.
Qed.

Lemma cell_ok_storable (r c : nat) (v : pyval) (ws ws' : Openpyxl.worksheet) :
  Openpyxl.cell r c v ws = Ok ws' -> storable_value v.
Proof.
  unfold Openpyxl.cell, storable_value.
  destruct ((r <? 1)%nat || (c <? 1)%nat); [done |].
  destruct (Openpyxl.bind_value v) as [cv|e] eqn:Hv; [by exists cv |].
  destruct v; simpl in *; try done.
Qed.

Lemma cell_raise (r c : nat) (v : pyval) (ws : Openpyxl.worksheet) (e : exn) :
  (1 <= r)%nat -> (1 <= c)%nat ->
  Openpyxl.cell r c v ws = Raise e ->
  Openpyxl.bind_value v = Raise e.
Proof.
  intros Hr Hc. unfold Openpyxl.cell.
  destruct (Nat.ltb_spec r 1); [lia |]. destruct (Nat.ltb_spec c 1); [lia |].
  cbn [orb]. destruct v; cbv beta iota; try done;
    (destruct (Openpyxl.bind_value _); cbn [obind]; [done | by intros [= ->]]).
Qed.

Lemma enumerate_elem {A} (start : nat) (l : list A) (i : nat) (a : A) :
  (i, a) ∈ enumerate start l -> (start <= i)%nat /\ a ∈ l.
Proof.
  revert start. induction l as [|x l IH]; intros start; simpl.
  - by intros ?%elem_of_nil.
  - intros [[= -> ->] | H]%elem_of_cons.
    + split; [lia | apply list_elem_of_here].
    + apply IH in H as [? ?]. split; [lia | by apply list_elem_of_further].
Qed.

Lemma enumerate_fmap_snd {A} (start : nat) (l : list A) :
  (enumerate start l).*2 = l.
Proof. revert start. induction l as [|x l IH]; intros start; simpl; [done | by rewrite IH]. Qed.

Lemma write_row_ok_storable (r : nat) (vals : list pyval)
    (ws ws' : Openpyxl.worksheet) :
  write_row r vals ws = Ok ws' -> Forall storable_value vals.
Proof.
  unfold write_row. intros H. apply for_fold_ok_inv in H.
  rewrite <- (enumerate_fmap_snd 1 vals). apply Forall_fmap.
  eapply Forall_impl; [exact H |].
  intros [c v] (s0 & s1 & Hc). simpl. by eapply cell_ok_storable.
Qed.

Lemma write_row_raise (r : nat) (vals : list pyval) (ws : Openpyxl.worksheet)
    (e : exn) :
  (1 <= r)%nat ->
  write_row r vals ws = Raise e ->
  exists v, v ∈ vals /\ Openpyxl.bind_value v = Raise e.
Proof.
  unfold write_row. intros Hr H.
  apply for_fold_raise_inv in H as (s0 & [c v] & Hin & Hc).
  apply enumerate_elem in Hin as [Hge Hin].
  exists v. split; [done |]. simpl in Hc.
  exact (cell_raise r c v s0 e Hr Hge Hc).
Qed.

Lemma row_data_storable (r : nat) (d : dict) :
  Forall storable_value (row_data r d) -> storable d.
Proof.
  unfold row_data, storable, exported_fields, dict_get.
  intros H k v Hk Hv. rewrite !Forall_cons in H.
  rewrite !elem_of_cons, elem_of_nil in Hk.
  repeat (destruct Hk as [-> | Hk]; [rewrite Hv in H; tauto |]). done.
Qed.

Lemma row_data_elem (r : nat) (d : dict) (v : pyval) :
  v ∈ row_data r d ->
  v = VInt (Z.of_nat r - 1) \/ v = VStr ""
  \/ exists k, k ∈ exported_fields /\ d !! k = Some v.
Proof.
  unfold row_data, dict_get, exported_fields.
  rewrite !elem_of_cons, elem_of_nil. intros H.
  destruct H as [-> | H]; [by left |].
  repeat (destruct H as [-> | H];
          [match goal with
           | |- context [d !! ?k] =>
               destruct (d !! k) eqn:Hk;
               [right; right; exists k; split; [in_list | done] | right; by left]
           end |]).
  done.
Qed.

Lemma export_ok_storable (clock : Datetime.datetime) (db : Mongo.collection)
    (resp : StreamingResponse) :
  (export_submissions_excel clock db).1 = Ok resp ->
  Forall storable (Mongo.find_to_list "_id" 1000 db).
Proof.
  intros H. unfold export_submissions_excel in H. cbn [fst] in H.
  destruct (write_row 1 (VStr <$> headers) ∅) as [ws1|]; [| done].
  cbn [obind] in H.
  destruct (for_fold _ ws1 _) as [ws2|] eqn:Hloop; [| done].
  apply for_fold_ok_inv in Hloop.
  rewrite <- (enumerate_fmap_snd 2 (Mongo.find_to_list "_id" 1000 db)).
  apply Forall_fmap. eapply Forall_impl; [exact Hloop |].
  intros [r d] (s0 & s1 & Hrow). simpl.
  apply (row_data_storable r). by eapply write_row_ok_storable.
Qed.

Lemma export_raise_inv (clock : Datetime.datetime) (db : Mongo.collection)
    (e : exn) :
  (export_submissions_excel clock db).1 = Raise e ->
  exists d k v, d ∈ Mongo.find_to_list "_id" 1000 db
    /\ k ∈ exported_fields /\ d !! k = Some v
    /\ Openpyxl.bind_value v = Raise e.
Proof.
  intros H. unfold export_submissions_excel in H. cbn [fst] in H.
  destruct (write_row 1 (VStr <$> headers) ∅) as [ws1|e1] eqn:Hhead.
  2: { exfalso. destruct (write_row_holds [] (VStr <$> headers) header_row ∅)
         as (ws & Hw & _); [apply header_cells | by intros [|r] [|c] |].
       change (S (length [])) with 1%nat in Hw. congruence. }
  cbn [obind] in H.
  destruct (for_fold _ ws1 _) as [ws2|e2] eqn:Hloop; [done |].
  cbn [obind] in H. injection H as <-.
  apply for_fold_raise_inv in Hloop as (s0 & [r d] & Hin & Hrow).
  apply enumerate_elem in Hin as [Hr Hd].
  apply write_row_raise in Hrow as (v & Hv & Hbind); [| lia].
  apply row_data_elem in Hv as [-> | [-> | (k & Hk & Hdk)]]; [done | done |].
  exists d, k, v. repeat split; assumption.
Qed.

End ExportFailure.

(** X10. Export succeeds exactly when the exported fields of the first
    1000 documents hold, where present, values a worksheet cell accepts.
    When it fails, it fails with openpyxl's [IllegalCharacterError] (text
    with a control character) or [ValueError] (a value of a type a cell
    cannot hold), raised for a value some stored document has in an
    exported field; no download is produced and the collection is left as
    it is. *)
Theorem export_succeeds_iff_storable (clock : Datetime.datetime)
    (db : Mongo.collection) :
  ((exists resp, (export_submissions_excel clock db).1 = Ok resp) <->
   Forall storable (Mongo.find_to_list "_id" 1000 db))
  /\ (forall e, (export_submissions_excel clock db).1 = Raise e ->
        (e = IllegalCharacterError \/ e = ValueError)
        /\ exists d k v, d ∈ Mongo.find_to_list "_id" 1000 db
             /\ k ∈ exported_fields /\ d !! k = Some v
             /\ Openpyxl.bind_value v = Raise e)
  /\ (export_submissions_excel clock db).2 = db.
Proof.
  split; [| split; [| done]].
  - split.
    + intros [resp H]. by eapply export_ok_storable.
    + intros Hs. destruct (export_holds clock db Hs) as (resp & -> & _).
      by exists resp.
  - intros e H.
    destruct (export_raise_inv clock db e H) as (d & k & v & Hd & Hk & Hv & Hb).
    split; [by eapply bind_value_raise |]. exists d, k, v. repeat split; assumption.
Qed.

Lemma export_succeeds_iff_storable_witness :
  (IllegalCharacterError = IllegalCharacterError \/ IllegalCharacterError = ValueError)
  /\ exists d k v,
       d ∈ Mongo.find_to_list "_id" 1000
             [ {["shop_name" := VStr (String "007" "")]} ]
       /\ k ∈ exported_fields /\ d !! k = Some v
       /\ Openpyxl.bind_value v = Raise IllegalCharacterError.
Proof.
  apply (proj1 (proj2 (export_succeeds_iff_storable sample_clock
                         [ {["shop_name" := VStr (String "007" "")]} ]))
           IllegalCharacterError).
  vm_compute. reflexivity.
Defined.

Section PrintableRecords.

Lemma is_digit_legal (c : ascii) :
  Pydantic.is_digit c = true -> Openpyxl.illegal c = false.
Proof.
  unfold Pydantic.is_digit, Openpyxl.illegal, Py.in_range.
  rewrite andb_true_iff, !N.leb_le. intros [H1 H2].
  rewrite !orb_false_iff, !andb_false_iff, !N.leb_gt. lia.
Qed.

Lemma matches_format_legal (fmt : list format_item) (cs : list ascii) :
  matches_format fmt cs = true -> legal_format fmt = true ->
  length cs = length fmt /\ forall c, In c cs -> Openpyxl.illegal c = false.
Proof.
  revert cs. induction fmt as [|item fmt IH]; intros [|c cs]; simpl; try done;
    try (destruct item; done).
  destruct item as [|a]; intros [Hc Hm]%andb_true_iff [Ha Hl]%andb_true_iff;
    destruct (IH cs Hm Hl) as [Hlen Hall].
  - split; [by rewrite Hlen |]. intros c' [<- | Hin]; [by apply is_digit_legal | auto].
  - apply Ascii.eqb_eq in Hc as <-. split; [by rewrite Hlen |].
    intros c' [<- | Hin]; [by apply negb_true_iff | auto].
Qed.

Lemma string_length_chars (s : string) : String.length s = length (Py.chars s).
Proof. induction s as [|c s IH]; simpl; [done | by rewrite IH]. Qed.

Lemma isoformat_utc_cell_text (clock : Datetime.datetime) :
  cell_text (Datetime.isoformat (Datetime.now (Some Datetime.utc) clock)).
Proof.
  pose proof (isoformat_utc_iso8601 clock) as H.
  unfold is_iso8601_utc in H. unfold cell_text. rewrite string_length_chars.
  apply orb_true_iff in H as [H | H];
    apply matches_format_legal in H as [-> Hall]; try done;
    (split; [vm_compute; discriminate | done]).
Qed.

Lemma cell_of_text (s : string) : cell_text s -> cell_of (VStr s) = Openpyxl.Text s.
Proof. intros H. unfold cell_of. by rewrite bind_value_text. Qed.

Lemma printable_input (body : dict) (input : FormSubmissionCreate.t) :
  FormSubmissionCreate.validate body = inr input ->
  printable_body body ->
  forall name s, name ∈ input_fields ->
    FormSubmissionCreate.model_dump input !! name = Some (VStr s) -> cell_text s.
Proof.
  intros Hv Hp name s Hname Hs. apply (Hp name s Hname).
  by rewrite <- (validate_fields body input name Hv Hname).
Qed.

(** The row of a record whose strings a cell takes as they are. *)
Lemma record_row (id created_at : string) (input : FormSubmissionCreate.t) (i : nat) :
  (forall name s, name ∈ input_fields ->
     FormSubmissionCreate.model_dump input !! name = Some (VStr s) -> cell_text s) ->
  cell_text created_at ->
  storable (record_doc id input created_at)
  /\ data_row i (record_doc id input created_at)
     = Openpyxl.Number (Z.of_nat i + 1)
       :: (Openpyxl.Text <$> response_cells (record_response id input created_at)).
Proof.
  intros Hin Hc. destruct input as [s1 s2 s3 s4 s5 s6 s7 s8 s9 s10].
  assert (H1 := Hin "mobile_no" s1 ltac:(unfold input_fields; simpl; in_list) eq_refl).
  assert (H2 := Hin "shop_name" s2 ltac:(unfold input_fields; simpl; in_list) eq_refl).
  assert (H3 := Hin "owner_name" s3 ltac:(unfold input_fields; simpl; in_list) eq_refl).
  assert (H4 := Hin "ind_name" s4 ltac:(unfold input_fields; simpl; in_list) eq_refl).
  assert (H5 := Hin "area_pin_code" s5 ltac:(unfold input_fields; simpl; in_list) eq_refl).
  assert (H6 := Hin "address" s6 ltac:(unfold input_fields; simpl; in_list) eq_refl).
  assert (H7 := Hin "city" s7 ltac:(unfold input_fields; simpl; in_list) eq_refl).
  assert (H8 := Hin "dist" s8 ltac:(unfold input_fields; simpl; in_list) eq_refl).
  assert (H9 := Hin "state" s9 ltac:(unfold input_fields; simpl; in_list) eq_refl).
  assert (H10 := Hin "country" s10 ltac:(unfold input_fields; simpl; in_list) eq_refl).
  clear Hin.
  set (d := record_doc id (FormSubmissionCreate.mk s1 s2 s3 s4 s5 s6 s7 s8 s9 s10)
              created_at).
  assert (L1 : d !! "mobile_no" = Some (VStr s1)) by (vm_compute; reflexivity).
  assert (L2 : d !! "shop_name" = Some (VStr s2)) by (vm_compute; reflexivity).
  assert (L3 : d !! "owner_name" = Some (VStr s3)) by (vm_compute; reflexivity).
  assert (L4 : d !! "ind_name" = Some (VStr s4)) by (vm_compute; reflexivity).
  assert (L5 : d !! "area_pin_code" = Some (VStr s5)) by (vm_compute; reflexivity).
  assert (L6 : d !! "address" = Some (VStr s6)) by (vm_compute; reflexivity).
  assert (L7 : d !! "city" = Some (VStr s7)) by (vm_compute; reflexivity).
  assert (L8 : d !! "dist" = Some (VStr s8)) by (vm_compute; reflexivity).
  assert (L9 : d !! "state" = Some (VStr s9)) by (vm_compute; reflexivity).
  assert (L10 : d !! "country" = Some (VStr s10)) by (vm_compute; reflexivity).
  assert (L11 : d !! "created_at" = Some (VStr created_at)) by (vm_compute; reflexivity).
  clearbody d.
  split.
  - intros k v Hk Hv. unfold exported_fields in Hk.
    rewrite !elem_of_cons, elem_of_nil in Hk.
    repeat (destruct Hk as [-> | Hk];
            [match goal with
             | L : d !! ?k = Some (VStr ?s), Ht : cell_text ?s, Hv : d !! ?k = Some v |- _ =>
                 rewrite L in Hv; injection Hv as <-;
                 eexists; by apply bind_value_text
             end |]).
    done.
  - unfold data_row, exported_fields. cbn [fmap list_fmap].
    rewrite L1, L2, L3, L4, L5, L6, L7, L8, L9, L10, L11.
    rewrite !cell_of_text by done. reflexivity.
Qed.

Lemma imap_Forall2 {A B C} (f : nat -> A -> C) (g : nat -> B -> C)
    (l : list A) (k : list B) :
  Forall2 (fun a b => forall i, f i a = g i b) l k -> imap f l = imap g k.
Proof.
  revert k f g. induction l as [|a l IH]; intros k f g H.
  - by inversion H.
  - inversion H as [|? b ? k' Hab Hrest]; subst. rewrite !imap_cons.
    f_equal; [apply Hab |]. apply IH.
    eapply Forall2_impl; [exact Hrest |]. intros a' b' Hi i. apply Hi.
Qed.

End PrintableRecords.

(** X11. Export shows what List returns: after any sequence of requests
    whose accepted bodies hold printable text (no control characters, at
    most 32767 characters a field), Export and List both succeed, and the
    sheet is the header row followed, for the i-th record List returns, by
    the row of i and the record's mobile_no, shop_name, owner_name,
    ind_name, area_pin_code, address, city, dist, state, country and
    created_at, as text.  The id of a record is not exported. *)
Theorem export_shows_what_list_returns (rs : list request) (clock : Datetime.datetime) :
  (forall urandom clock' object_id body,
     Create urandom clock' object_id body ∈ rs -> printable_body body) ->
  exists resp records,
    (export_submissions_excel clock (run rs)).1 = Ok resp
    /\ (get_submissions (run rs)).1 = Ok records
    /\ Openpyxl.values (sheet resp)
       = (Openpyxl.Text <$> headers)
         :: imap (fun i r => Openpyxl.Number (Z.of_nat i + 1)
                             :: (Openpyxl.Text <$> response_cells r)) records.
Proof.
  intros Hp.
  destruct (for_append_Forall2 FormSubmissionResponse.of_doc
              (fun d r => storable d
                          /\ forall i, data_row i d
                               = Openpyxl.Number (Z.of_nat i + 1)
                                 :: (Openpyxl.Text <$> response_cells r))
              (Mongo.find_to_list "_id" 1000 (run rs)))
    as (records & Hlist & Hrecords).
  { intros d Hd. unfold Mongo.find_to_list in Hd.
    apply elem_of_take in Hd as (i & Hd & _).
    apply list_lookup_fmap_Some in Hd as (d0 & -> & Hd0).
    apply list_elem_of_lookup_2 in Hd0.
    apply run_documents in Hd0 as (u & c & o & b & input & Hin & Hv & ->).
    rewrite created_doc_projected. eexists. split; [apply of_doc_record |].
    assert (Hrow := fun j => record_row (Uuid.str (Uuid.uuid4 u))
                      (Datetime.isoformat (Datetime.now (Some Datetime.utc) c)) input j
                      (printable_input b input Hv (Hp u c o b Hin))
                      (isoformat_utc_cell_text c)).
    split; [apply (Hrow O) | intros j; apply (Hrow j)]. }
  destruct (export_values clock (run rs)) as (resp & Hexp & _ & Hvalues).
  { apply Forall_forall. intros d Hd. apply list_elem_of_lookup in Hd as [i Hi].
    destruct (Forall2_lookup_l _ _ _ _ _ Hrecords Hi) as (r & _ & Hr & _). done. }
  exists resp, records. rewrite Hexp. split; [done |]. split; [exact Hlist |].
  rewrite Hvalues. f_equal. apply imap_Forall2.
  eapply Forall2_impl; [exact Hrecords |]. by intros d r [_ H].
Qed.

Lemma export_shows_what_list_returns_witness :
  exists resp records,
    (export_submissions_excel sample_clock (run (sample_requests 2))).1 = Ok resp
    /\ (get_submissions (run (sample_requests 2))).1 = Ok records
    /\ Openpyxl.values (sheet resp)
       = (Openpyxl.Text <$> headers)
         :: imap (fun i r => Openpyxl.Number (Z.of_nat i + 1)
                             :: (Openpyxl.Text <$> response_cells r)) records.
Proof.
  apply (export_shows_what_list_returns (sample_requests 2) sample_clock).
  intros u c o body Hin. unfold sample_requests in Hin. cbn [seq fmap list_fmap] in Hin.
  assert (body = sample_body) as ->.
  { rewrite !elem_of_cons, elem_of_nil in Hin.
    destruct Hin as [[= _ _ _ ->] | [[= _ _ _ ->] | []]]; done. }
  intros name s Hname Hs. unfold input_fields in Hname. simpl in Hname.
  rewrite !elem_of_cons, elem_of_nil in Hname.
  repeat (destruct Hname as [-> | Hname];
          [vm_compute in Hs; injection Hs as <-;
           split; [vm_compute; discriminate |];
           intros ch Hch; simpl in Hch;
           repeat (destruct Hch as [<- | Hch]; [reflexivity |]); done |]).
  done.
Defined.



(** * Start-up configuration *)

Section Split.

Lemma split_nonempty (sep : ascii) (s : string) : split sep s <> [].
Proof.
  destruct s as [|c s]; simpl; [done |].
  destruct (Ascii.eqb c sep); [done |]. by destruct (split sep s).
Qed.

(** [sep.join(s.split(sep)) == s]. *)
Lemma join_split (sep : ascii) (s : string) :
  String.concat (String sep "") (split sep s) = s.
Proof.
  induction s as [|c s IH]; simpl; [done |].
  destruct (Ascii.eqb_spec c sep) as [->|Hne].
  - pose proof (split_nonempty sep s) as Hs.
    destruct (split sep s) as [|p ps] eqn:Hsp; [done |].
    by rewrite <- IH.
  - pose proof (split_nonempty sep s) as Hs.
    destruct (split sep s) as [|p ps] eqn:Hsp; [done |].
    destruct ps as [|p' ps]; cbn [String.concat] in *; by rewrite <- IH.
Qed.

Lemma split_pieces (sep : ascii) (s : string) (piece : string) :
  piece ∈ split sep s -> ~ In sep (Py.chars piece).
Proof.
  revert piece. induction s as [|c s IH]; intros piece; simpl.
  - intros ->%list_elem_of_singleton. simpl. tauto.
  - destruct (Ascii.eqb_spec c sep) as [->|Hne].
    + intros [-> | H]%elem_of_cons; [simpl; tauto | by apply IH].
    + pose proof (split_nonempty sep s) as Hs.
      destruct (split sep s) as [|p ps] eqn:Hsp; [done |].
      intros [-> | H]%elem_of_cons.
      * simpl. intros [Heq | Hin]; [congruence |].
        apply (IH p); [apply list_elem_of_here | done].
      * apply IH. by apply list_elem_of_further.
Qed.

Lemma split_length (sep : ascii) (s : string) :
  length (split sep s)
  = S (length (filter (fun c => c = sep) (Py.chars s))).
Proof.
  induction s as [|c s IH]; simpl; [done |].
  destruct (Ascii.eqb_spec c sep) as [->|Hne].
  - rewrite filter_cons_True by done. simpl. by rewrite IH.
  - rewrite filter_cons_False by done.
    pose proof (split_nonempty sep s) as Hs.
    destruct (split sep s) as [|p ps] eqn:Hsp; [done |]. by rewrite <- IH.
Qed.

End Split.

(** X13. The allowed origins of the CORS middleware are the pieces of the
    [CORS_ORIGINS] variable between its commas: joined by commas they give
    the variable back, none of them holds a comma, and there is one more
    of them than there are commas, so the list is never empty (an empty
    variable allows the one origin [""]).  Without the variable every
    origin is allowed ([["*"]]).  The pieces are taken as they are: blanks
    around a comma stay in the origin. *)
Theorem allow_origins_are_the_comma_pieces (environ : gmap string string) :
  let value := environ_get environ "CORS_ORIGINS" "*" in
  String.concat "," (allow_origins environ) = value
  /\ (forall origin, origin ∈ allow_origins environ ->
        ~ In ","%char (Py.chars origin))
  /\ length (allow_origins environ)
     = S (length (filter (fun c => c = ","%char) (Py.chars value)))
  /\ (environ !! "CORS_ORIGINS" = None -> allow_origins environ = ["*"])
  /\ (environ !! "CORS_ORIGINS" = Some "" -> allow_origins environ = [""])
  /\ (forall a b,
        environ !! "CORS_ORIGINS" = Some (a +:+ ", " +:+ b) ->
        ~ In ","%char (Py.chars a) -> ~ In ","%char (Py.chars b) ->
        allow_origins environ = [a; " " +:+ b]).
Proof.
  intros value. unfold allow_origins. fold value.
  split; [apply join_split |]. split; [apply split_pieces |].
  split; [apply split_length |].
  unfold value, environ_get.
  split; [by intros -> |]. split; [by intros -> |].
  intros a b -> Ha Hb.
  assert (Hnc : forall s, ~ In ","%char (Py.chars s) -> split "," s = [s]).
  { induction s as [|c s IH]; simpl; [done |]. intros Hs.
    destruct (Ascii.eqb_spec c ",") as [->|Hne]; [tauto |].
    rewrite IH by tauto. done. }
  induction a as [|c a IH].
  - change (split "," (String "," (String " " b)) = ["" ; String " " b]).
    cbn [split]. change (("," =? ",")%char) with true. cbv iota.
    change ((" " =? ",")%char) with false. cbv iota.
    by rewrite Hnc.
  - change (split "," (String c (a +:+ ", " +:+ b)) = [String c a; " " +:+ b]).
    cbn [split]. simpl in Ha.
    destruct (Ascii.eqb_spec c ",") as [->|Hne]; [tauto |].
    rewrite IH by tauto. done.
Qed.

Lemma allow_origins_are_the_comma_pieces_witness :
  allow_origins {["CORS_ORIGINS" := "https://a.example, https://b.example"]}
  = ["https://a.example"; " https://b.example"].
Proof.
  apply (proj2 (proj2 (proj2 (proj2 (proj2
           (allow_origins_are_the_comma_pieces
              {["CORS_ORIGINS" := "https://a.example, https://b.example"]})))))
           "https://a.example" "https://b.example").
  - reflexivity.
  - vm_compute. intros H. repeat (destruct H as [H | H]; [discriminate |]). done.
  - vm_compute. intros H. repeat (destruct H as [H | H]; [discriminate |]). done.
Defined.

(** * The timestamp as text *)

Section IsoformatInjective.

Lemma fmt_0d_inj (k : nat) (n m : N) :
  n < 10 ^ N.of_nat k -> m < 10 ^ N.of_nat k ->
  Py.fmt_0d k n = Py.fmt_0d k m -> n = m.
Proof.
  intros Hn Hm H. unfold Py.fmt_0d in H.
  apply digits_be_inj in H as [H _]; [| lia | done].
  by rewrite !N.mod_small in H.
Qed.

Lemma length_fmt_0d (k : nat) (n : N) : String.length (Py.fmt_0d k n) = k.
Proof. unfold Py.fmt_0d. rewrite length_digits_be. simpl. lia. Qed.

End IsoformatInjective.

(** X14. The text of created_at keeps the whole timestamp: two clock
    readings (within the ranges of [datetime]) that [isoformat] writes
    alike are the same reading, to the microsecond. *)
Theorem created_at_text_determines_the_time (clock1 clock2 : Datetime.datetime) :
  valid_datetime clock1 -> valid_datetime clock2 ->
  Datetime.isoformat (Datetime.now (Some Datetime.utc) clock1)
  = Datetime.isoformat (Datetime.now (Some Datetime.utc) clock2) ->
  Datetime.now (Some Datetime.utc) clock1 = Datetime.now (Some Datetime.utc) clock2.
Proof.
  destruct clock1 as [y1 mo1 d1 h1 mi1 s1 us1 tz1],
           clock2 as [y2 mo2 d2 h2 mi2 s2 us2 tz2].
  unfold valid_datetime, Datetime.now, Datetime.isoformat.
  cbn [Datetime.year Datetime.month Datetime.day Datetime.hour Datetime.minute
       Datetime.second Datetime.microsecond Datetime.tz].
  intros (Hy1 & Hmo1 & Hd1 & Hh1 & Hmi1 & Hs1 & Hus1)
         (Hy2 & Hmo2 & Hd2 & Hh2 & Hmi2 & Hs2 & Hus2) H.
  apply append_inj_length in H as [Hy H]; [| by rewrite !length_fmt_0d].
  apply (append_inj_length "-" "-") in H as [_ H]; [| done].
  apply append_inj_length in H as [Hmo H]; [| by rewrite !length_fmt_0d].
  apply (append_inj_length "-" "-") in H as [_ H]; [| done].
  apply append_inj_length in H as [Hd H]; [| by rewrite !length_fmt_0d].
  apply (append_inj_length "T" "T") in H as [_ H]; [| done].
  apply append_inj_length in H as [Hh H]; [| by rewrite !length_fmt_0d].
  apply (append_inj_length ":" ":") in H as [_ H]; [| done].
  apply append_inj_length in H as [Hmi H]; [| by rewrite !length_fmt_0d].
  apply (append_inj_length ":" ":") in H as [_ H]; [| done].
  apply append_inj_length in H as [Hs H]; [| by rewrite !length_fmt_0d].
  apply fmt_0d_inj in Hy; [| simpl; lia | simpl; lia].
  apply fmt_0d_inj in Hmo; [| simpl; lia | simpl; lia].
  apply fmt_0d_inj in Hd; [| simpl; lia | simpl; lia].
  apply fmt_0d_inj in Hh; [| simpl; lia | simpl; lia].
  apply fmt_0d_inj in Hmi; [| simpl; lia | simpl; lia].
  apply fmt_0d_inj in Hs; [| simpl; lia | simpl; lia].
  subst.
  assert (us1 = us2) as ->; [| done].
  revert H.
  destruct (N.eqb_spec us1 0) as [-> | Hn1], (N.eqb_spec us2 0) as [-> | Hn2];
    intros H; [done | discriminate H | discriminate H |].
  apply append_inj_length in H as [H _];
    [| by rewrite !length_append, !length_fmt_0d].
  apply (append_inj_length "." ".") in H as [_ H]; [| done].
  apply fmt_0d_inj in H; [done | simpl; lia | simpl; lia].
Qed.

Lemma created_at_text_determines_the_time_witness :
  Datetime.now (Some Datetime.utc) sample_clock
  = Datetime.now (Some Datetime.utc) (Datetime.mk_datetime 2024 3 7 9 5 0 123 (Some Datetime.utc)).
Proof.
  apply (created_at_text_determines_the_time sample_clock
           (Datetime.mk_datetime 2024 3 7 9 5 0 123 (Some Datetime.utc))).
  - unfold valid_datetime. simpl. lia.
  - unfold valid_datetime. simpl. lia.
  - vm_compute. reflexivity.
Defined.

(** * The identifier as text *)

Section UuidText.

Lemma is_hex_digit_char (d : N) : d < 16 -> is_hex (Py.digit_char d) = true.
Proof.
  intros H. unfold is_hex, Py.in_range, Py.digit_char.
  destruct (N.ltb_spec d 10); rewrite N_ascii_embedding by lia;
    apply orb_true_iff; [left | right]; apply andb_true_iff;
    rewrite !N.leb_le; lia.
Qed.

Lemma digits_be_hex (k : nat) (n : N) (acc : string) :
  Forall (fun c => is_hex c = true) (Py.chars acc) ->
  Forall (fun c => is_hex c = true) (Py.chars (Py.digits_be 16 k n acc)).
Proof.
  revert n acc. induction k as [|k IH]; intros n acc H; simpl; [done |].
  apply IH. simpl. constructor; [| done].
  apply is_hex_digit_char. apply N.mod_lt. done.
Qed.

Lemma get_digits_be_acc (base : N) (k i : nat) (n : N) (acc : string) :
  String.get (k + i) (Py.digits_be base k n acc) = String.get i acc.
Proof.
  revert n acc i. induction k as [|k IH]; intros n acc i; simpl; [done |].
  replace (S (k + i)) with (k + S i)%nat by lia. by rewrite IH.
Qed.

(** The digit at place [p] from the left of a [k]-digit conversion. *)
Lemma get_digits_be (base : N) (k p : nat) (n : N) (acc : string) :
  (p < k)%nat ->
  String.get p (Py.digits_be base k n acc)
  = Some (Py.digit_char ((n / base ^ N.of_nat (k - 1 - p)) mod base)).
Proof.
  revert n acc. induction k as [|k IH]; intros n acc H; [lia |].
  simpl Py.digits_be.
  destruct (decide (p = k)) as [-> | Hne].
  - replace k with (k + 0)%nat at 1 by lia. rewrite get_digits_be_acc. simpl.
    replace (k - 0 - k)%nat with 0%nat by lia. simpl. by rewrite N.div_1_r.
  - rewrite IH by lia.
    replace (S k - 1 - p)%nat with (S (k - 1 - p)) by lia.
    rewrite Nat2N.inj_succ, N.pow_succ_r', N.Div0.div_div. done.
Qed.

(** The version nibble of a [uuid4] is 4. *)
Lemma uuid4_version (r : N) : (Uuid.uuid4 r / 16 ^ 19) mod 16 = 4.
Proof.
  change (16 ^ 19) with (2 ^ 76). change 16 with (2 ^ 4).
  rewrite <- N.shiftr_div_pow2, <- N.land_ones.
  apply N.bits_inj. intros i.
  rewrite N.land_spec, N.shiftr_spec'. unfold Uuid.uuid4.
  rewrite N.lor_spec, N.ldiff_spec, N.lor_spec, N.ldiff_spec.
  destruct (N.lt_ge_cases i 4) as [Hlt | Hge].
  - assert (Hi : i = 0 \/ i = 1 \/ i = 2 \/ i = 3) by lia.
    destruct Hi as [-> | [-> | [-> | ->]]];
      (generalize (N.testbit r); intros b;
       match goal with |- context [b ?j] => generalize (b j) end;
       intros []; reflexivity).
  - rewrite N.ones_spec_high by done. rewrite andb_false_r.
    symmetry. apply N.bits_above_log2. simpl. lia.
Qed.

(** The variant nibble of a [uuid4] is one of 8, 9, 10, 11. *)
Lemma uuid4_variant (r : N) : 8 <= (Uuid.uuid4 r / 16 ^ 15) mod 16 <= 11.
Proof.
  pose proof (N.mod_lt (Uuid.uuid4 r / 16 ^ 15) 16 ltac:(done)) as Hlt.
  assert (Hbit : forall i, i < 4 ->
            N.testbit ((Uuid.uuid4 r / 16 ^ 15) mod 16) i
            = N.testbit (Uuid.uuid4 r) (i + 60)).
  { intros i Hi.
    change (16 ^ 15) with (2 ^ 60). change 16 with (2 ^ 4).
    rewrite <- N.shiftr_div_pow2, <- N.land_ones.
    rewrite N.land_spec, N.shiftr_spec', N.ones_spec_low by done.
    apply andb_true_r. }
  pose proof (Hbit 3 ltac:(done)) as H3. pose proof (Hbit 2 ltac:(done)) as H2.
  clear Hbit. unfold Uuid.uuid4 in H2, H3.
  rewrite N.lor_spec, N.ldiff_spec, N.lor_spec, N.ldiff_spec in H2, H3.
  assert (H2' : N.testbit ((Uuid.uuid4 r / 16 ^ 15) mod 16) 2 = false)
    by (unfold Uuid.uuid4; rewrite H2; destruct (N.testbit r (2 + 60)); reflexivity).
  assert (H3' : N.testbit ((Uuid.uuid4 r / 16 ^ 15) mod 16) 3 = true)
    by (unfold Uuid.uuid4; rewrite H3; destruct (N.testbit r (3 + 60)); reflexivity).
  clear H2 H3.
  set (v := (Uuid.uuid4 r / 16 ^ 15) mod 16) in *. clearbody v.
  assert (Hv : v = 0 \/ v = 1 \/ v = 2 \/ v = 3 \/ v = 4 \/ v = 5 \/ v = 6 \/ v = 7
               \/ 8 <= v <= 11 \/ v = 12 \/ v = 13 \/ v = 14 \/ v = 15) by lia.
  repeat (destruct Hv as [-> | Hv]; [discriminate |]).
  destruct Hv as [Hv | Hv]; [done |].
  repeat (destruct Hv as [-> | Hv]; [discriminate |]).
  subst v. discriminate.
Qed.

Lemma uuid4_text (r : N) : is_uuid4_text (Uuid.str (Uuid.uuid4 r)) = true.
Proof.
  pose proof (digits_be_hex 32 (Uuid.uuid4 r) "" ltac:(constructor)) as Hhex.
  pose proof (get_digits_be 16 32 12 (Uuid.uuid4 r) "" ltac:(lia)) as H12.
  pose proof (get_digits_be 16 32 16 (Uuid.uuid4 r) "" ltac:(lia)) as H16.
  pose proof (length_fmt_0x 32 (Uuid.uuid4 r)) as Hlen.
  change (N.of_nat (32 - 1 - 12)) with 19 in H12.
  change (N.of_nat (32 - 1 - 16)) with 15 in H16.
  rewrite uuid4_version in H12.
  pose proof (uuid4_variant r) as Hv.
  set (v := (Uuid.uuid4 r / 16 ^ 15) mod 16) in *. clearbody v.
  unfold Uuid.str. cbv zeta.
  change (Py.digits_be 16 32 (Uuid.uuid4 r) "") with (Py.fmt_0x 32 (Uuid.uuid4 r))
    in *.
  set (h := Py.fmt_0x 32 (Uuid.uuid4 r)) in *. clearbody h.
  do 32 (destruct h as [|? h]; [discriminate Hlen |]).
  destruct h; [| discriminate Hlen]. clear Hlen.
  cbn [String.get Nat.eqb] in H12, H16.
  injection H12 as ->. injection H16 as ->.
  cbn [Py.chars list_ascii_of_string] in Hhex.
  repeat match goal with
         | H : Forall _ (_ :: _) |- _ => apply Forall_cons in H as [? H]
         end.
  clear Hhex.
  assert (Hc : Py.digit_char v = "8"%char \/ Py.digit_char v = "9"%char
               \/ Py.digit_char v = "a"%char \/ Py.digit_char v = "b"%char).
  { assert (Hd : v = 8 \/ v = 9 \/ v = 10 \/ v = 11) by lia.
    destruct Hd as [-> | [-> | [-> | ->]]]; auto. }
  change (Py.digit_char 4) with "4"%char in *.
  generalize dependent (Py.digit_char v). intros c Hhexc Hc.
  cbv -[is_hex Ascii.eqb].
  repeat match goal with
         | H : is_hex ?a = true |- _ => rewrite H; clear H
         end.
  destruct Hc as [-> | [-> | [-> | ->]]]; reflexivity.
Qed.

End UuidText.

(** X15. The id of every record Create returns is the canonical text of
    a version 4 UUID: 36 characters, lowercase hexadecimal digits in
    groups of 8-4-4-4-12 with hyphens between them, the third group
    starting with 4 and the fourth with 8, 9, a or b. *)
Theorem created_id_is_a_version_4_uuid (urandom : N) (clock : Datetime.datetime)
    (object_id : N) (body : dict) (db : Mongo.collection)
    (resp : FormSubmissionResponse.t) :
  urandom < 2 ^ 128 ->
  (create_submission urandom clock object_id body db).1 = Ok resp ->
  is_uuid4_text (FormSubmissionResponse.id resp) = true.
Proof.
  intros _ H.
  destruct (FormSubmissionCreate.validate body) as [errs | input] eqn:Hval.
  - rewrite (create_rejected _ _ _ _ _ _ Hval) in H. discriminate.
  - rewrite (create_accepted _ _ _ _ _ _ Hval) in H. injection H as <-.
    apply uuid4_text.
Qed.

Lemma created_id_is_a_version_4_uuid_witness :
  is_uuid4_text "ffffffff-ffff-4fff-bfff-ffffffffffff" = true.
Proof.
  apply (created_id_is_a_version_4_uuid (2 ^ 128 - 1) sample_clock 7 sample_body []
           (record_response "ffffffff-ffff-4fff-bfff-ffffffffffff" sample_input
              "2024-03-07T09:05:00.000123+00:00")).
  - reflexivity.
  - rewrite (create_accepted _ _ _ _ _ sample_input validate_sample).
    vm_compute. reflexivity.
Defined.

Section UnprintableText.





End UnprintableText.




